(** * Fish Tracker: the view logic of [src/components/FishTracker.jsx]

    A shallow embedding of the React component [FishTracker]: the derived
    statistics computed on every render, the Length column's comparator
    and cell renderer, and the two asynchronous handlers [loadCatches] and
    [handleAddCatch] with the state they update, the notifications they
    show and the calls they issue to the [Fish] entity.

    JavaScript numbers are IEEE-754 binary64 values. They are modelled by
    Rocq's primitive [float], whose operations are specified in
    [FloatAxioms] against the reference implementation of [SpecFloat].

    A handler is modelled from its call to the settling of the promises
    it awaits, with no other event of the page in between: the replies of
    the [Fish] entity are inputs, the state of the component is threaded
    through, and the calls and notifications are logged in order. *)

From Stdlib Require Import ZArith List String Ascii Bool Lia Permutation.
From Stdlib Require Import Floats DecimalString.
From Stdlib Require Uint63.
From Stdlib Require NArith DecimalPos.
Import ListNotations.

#[local] Set Warnings "-inexact-float".
Local Open Scope list_scope.
Local Open Scope string_scope.

(** ** JavaScript numbers and values *)

Module JS.

Definition number := float.

(** [ToBoolean] of a number: [+0], [-0] and [NaN] are falsy. *)
Definition truthy (x : number) : bool :=
  negb (PrimFloat.is_zero x || PrimFloat.is_nan x).

(** [v || 0] for a property [v] that holds a number or is absent
    ([undefined] is falsy). *)
Definition or_zero (v : option number) : number :=
  match v with
  | Some x => if truthy x then x else 0%float
  | None => 0%float
  end.

Definition gt (x y : number) : bool := (y <? x)%float.
Definition ge (x y : number) : bool := (y <=? x)%float.

(** A non-negative integer as a number (exact below [2^53]). *)
Definition of_Z (n : Z) : number := of_uint63 (Uint63.of_Z n).

(** The length of an array as a number. *)
Definition of_nat (n : nat) : number := of_Z (Z.of_nat n).

(** [Array.prototype.reduce(callback, initialValue)]: a left fold. *)
Definition reduce {A B : Type} (callback : B -> A -> B) (l : list A) (initialValue : B) : B :=
  fold_left callback l initialValue.

Inductive value :=
| Num (x : number)
| Str (s : string).

(** A template literal [`${x}suffix`] is kept as its two parts; a plain
    string literal is [Literal]. *)
Inductive text :=
| Literal (s : string)
| Template (x : number) (suffix : string).

(** *** [Number.prototype.toFixed] *)

(** A finite non-zero double is [(-1)^s * m * 2^e]; its magnitude as a
    fraction [num / den] of integers. *)
Definition num (m : positive) (e : Z) : Z := Zpos m * 2 ^ Z.max e 0.
Definition den (e : Z) : Z := 2 ^ Z.max (- e) 0.

(** The integer [n] for which [n / 10^f - num/den] is as close to zero as
    possible, the larger one if there are two. *)
Definition nearest (f : nat) (m : positive) (e : Z) : Z :=
  (2 * 10 ^ Z.of_nat f * num m e + den e) / (2 * den e).

Definition decimal (n : Z) : string := NilZero.string_of_uint (N.to_uint (Z.to_N n)).

Fixpoint zeros (k : nat) : string :=
  match k with
  | O => EmptyString
  | S k => String "0"%char (zeros k)
  end.

(** Steps 10-11 of [toFixed]: the digits of [n], padded on the left to
    [f + 1] digits, with a point before the last [f] of them. *)
Definition fixed_string (n : Z) (f : nat) : string :=
  let m := decimal n in
  match f with
  | O => m
  | _ =>
      let k := String.length m in
      let m := if Nat.leb k f then zeros (f + 1 - k) ++ m else m in
      let k := String.length m in
      substring 0 (k - f) m ++ "." ++ substring (k - f) f m
  end.

Section ToFixed.

(** [Number::toString], to which [toFixed] hands over a value that is not
    finite, or the magnitude of one not below [10^21]. *)
Variable Number_toString : number -> string.

(** [x.toFixed(fractionDigits)], for [fractionDigits] from 0 to 100: a
    value that is not finite goes to [Number::toString]; otherwise the
    sign, then the digits of the magnitude. *)
Definition toFixed (x : number) (fractionDigits : nat) : string :=
  match Prim2SF x with
  | S754_zero _ => fixed_string 0 fractionDigits
  | S754_finite s m e =>
      (if s then "-" else EmptyString)
      ++ (if (10 ^ 21 * den e <=? num m e)%Z then Number_toString (abs x)
          else fixed_string (nearest fractionDigits m e) fractionDigits)
  | _ => Number_toString x
  end.

End ToFixed.

End JS.

(** ** Catch records *)

(** A record as the collaborator returns it: a JavaScript object, every
    property of which may be absent. The payload of a creation and the
    initial value [{ weight: 0 }] of the [biggestFish] fold are such
    objects too. *)
Record Fish := {
  _id : option string;
  species : option string;
  weight : option JS.number;
  length : option JS.number;
  location : option string;
  datecaught : option string;
  timeOfDay : option string;
  bait : option string;
  weather : option string;
  notes : option string
}.

(** ** Derived statistics (recomputed on every render) *)

Definition totalCatches (catches : list Fish) : nat := List.length catches.

Definition totalWeight (catches : list Fish) : JS.number :=
  JS.reduce (fun sum fish => (sum + JS.or_zero (weight fish))%float) catches 0%float.

(** The initial value [{ weight: 0 }] of the [biggestFish] fold. *)
Definition sentinel : Fish :=
  {| _id := None; species := None; weight := Some 0%float; length := None;
     location := None; datecaught := None; timeOfDay := None; bait := None;
     weather := None; notes := None |}.

Definition biggestFish (catches : list Fish) : Fish :=
  JS.reduce
    (fun max fish =>
       if JS.gt (JS.or_zero (weight fish)) (JS.or_zero (weight max)) then fish else max)
    catches sentinel.

Definition averageWeight (Number_toString : JS.number -> string) (catches : list Fish) : JS.value :=
  if (0 <? totalCatches catches)%nat
  then JS.Str (JS.toFixed Number_toString
                    (totalWeight catches / JS.of_nat (totalCatches catches))%float 2)
  else JS.Num 0%float.

(** The Biggest Fish card: [value={biggestFish.weight || 0}] shown through
    [formatter]. *)
Definition biggestFishFormatter (value : JS.number) : JS.text :=
  if JS.gt value 0%float then JS.Template value " lbs" else JS.Literal "None yet".

Definition biggestFishStatistic (catches : list Fish) : JS.text :=
  biggestFishFormatter (JS.or_zero (weight (biggestFish catches))).

(** ** The Length column *)

Definition lengthSorter (a b : Fish) : JS.number :=
  (JS.or_zero (length a) - JS.or_zero (length b))%float.

Definition inch : string := String (ascii_of_nat 34) EmptyString.

Definition lengthRender (length : option JS.number) : JS.text :=
  match length with
  | Some x => if JS.truthy x then JS.Template x inch else JS.Literal "N/A"
  | None => JS.Literal "N/A"
  end.

(** ** The date picker's value *)

Module Dayjs.

(** Modelled from the spec: the date picker hands the form a value of the
    [dayjs] package, which is not part of the sources; the spec has it
    "serialized to an ISO YYYY-MM-DD string". A value is a local calendar
    date and a time of day; [month] counts from 0 as the package's [$M]
    does. *)
Record t := {
  year : N;
  month : N;
  date : N;
  hour : N;
  minute : N;
  second : N;
  millisecond : N
}.

Definition padStart (targetLength : nat) (s : string) : string :=
  JS.zeros (targetLength - String.length s) ++ s.

Definition digits (n : N) : string := NilZero.string_of_uint (N.to_uint n).

(** Modelled from the spec: [format(template)], for the tokens the view
    uses: [YYYY] is the year on four digits, [MM] the month (from 1) and
    [DD] the day of the month on two; any other character stands for
    itself. *)
Fixpoint format (d : t) (template : string) : string :=
  match template with
  | String "Y" (String "Y" (String "Y" (String "Y" rest))) =>
      padStart 4 (digits (year d)) ++ format d rest
  | String "M" (String "M" rest) =>
      padStart 2 (digits (month d + 1)) ++ format d rest
  | String "D" (String "D" rest) =>
      padStart 2 (digits (date d)) ++ format d rest
  | String c rest => String c (format d rest)
  | EmptyString => EmptyString
  end.

End Dayjs.

(** ** The creation form *)

Module Form.

(** The values of the form's fields; a field never filled in is absent. *)
Record values := {
  species : option string;
  weight : option JS.number;
  length : option JS.number;
  datecaught : option Dayjs.t;
  location : option string;
  bait : option string;
  timeOfDay : option string;
  weather : option string;
  notes : option string
}.

(** [form.resetFields()]: no field has an initial value. *)
Definition initial : values :=
  {| species := None; weight := None; length := None; datecaught := None;
     location := None; bait := None; timeOfDay := None; weather := None;
     notes := None |}.

(** The rule [{ required: true }] of a text field rejects an absent value
    and the empty string; that of another field an absent value. *)
Definition required_text (v : option string) : bool :=
  match v with
  | Some EmptyString | None => false
  | Some _ => true
  end.

Definition required {A : Type} (v : option A) : bool :=
  match v with
  | Some _ => true
  | None => false
  end.

(** The fields marked required in the form: species, weight, date caught
    and location. *)
Definition valid (v : values) : bool :=
  required_text (species v) && required (weight v)
  && required (datecaught v) && required_text (location v).

End Form.

(** ** The view: state, collaborator and effects *)

(** The component's state: the three [useState] cells and the form
    instance. *)
Record View := {
  catches : list Fish;
  isModalOpen : bool;
  loading : bool;
  form : Form.values
}.

(** What the view does to the outside: calls of the [Fish] entity and
    notifications of [message]. *)
Inductive Event :=
| Fish_list
| Fish_create (catchData : Fish)
| message_error (content : string)
| message_success (content : string).

(** The object a call of the entity resolves with. *)
Record Result (A : Type) := {
  success : bool;
  data : A
}.
Arguments success {A} _.
Arguments data {A} _.

(** A promise settles: it is fulfilled with a result or rejected. *)
Inductive Settled (A : Type) :=
| Fulfilled (result : A)
| Rejected.
Arguments Fulfilled {A} _.
Arguments Rejected {A}.

(** The [Fish] entity of [../entities/Fish], outside the sources: how its
    two calls settle is an input of the view. *)
Module Entity.

Record Collaborator := {
  list : Settled (Result (list Fish));
  create : Fish -> Settled (Result (option Fish))
}.

End Entity.

Record World := {
  view : View;
  log : list Event
}.

(** A statement completes normally or throws. *)
Inductive Completion (A : Type) :=
| Normal (a : A)
| Throw.
Arguments Normal {A} _.
Arguments Throw {A}.

Definition M (A : Type) : Type := World -> Completion A * World.

Definition ret {A : Type} (a : A) : M A := fun w => (Normal a, w).

Definition bind {A B : Type} (m : M A) (k : A -> M B) : M B :=
  fun w =>
    match m w with
    | (Normal a, w') => k a w'
    | (Throw, w') => (Throw, w')
    end.

Definition throw {A : Type} : M A := fun w => (Throw, w).

(** An expression that yields a value or throws. *)
Definition or_throw {A : Type} (o : option A) : M A :=
  match o with
  | Some a => ret a
  | None => throw
  end.

Declare Scope js_scope.
Delimit Scope js_scope with js.
Notation "x <- m ;; k" := (bind m (fun x => k))
  (at level 61, m at next level, right associativity) : js_scope.
Notation "m ;; k" := (bind m (fun _ => k))
  (at level 61, right associativity) : js_scope.

(** [try { body } catch (error) { handler }] *)
Definition try_catch {A : Type} (body handler : M A) : M A :=
  fun w =>
    match body w with
    | (Normal a, w') => (Normal a, w')
    | (Throw, w') => handler w'
    end.

(** [try { body } finally { finalizer }]: the finalizer runs on every
    path; the completion of the body stands unless the finalizer throws. *)
Definition try_finally {A : Type} (body : M A) (finalizer : M unit) : M A :=
  fun w =>
    match body w with
    | (c, w') =>
        match finalizer w' with
        | (Normal _, w'') => (c, w'')
        | (Throw, w'') => (Throw, w'')
        end
    end.

(** A call of an async function that is not awaited: what it throws
    rejects its own promise and does not reach the caller. *)
Definition not_awaited (m : M unit) : M unit :=
  fun w => (Normal tt, snd (m w)).

Definition modify (f : View -> View) : M unit :=
  fun w => (Normal tt, {| view := f (view w); log := log w |}).

Definition emit (e : Event) : M unit :=
  fun w => (Normal tt, {| view := view w; log := log w ++ [e] |}).

(** [await p]: the result the promise is fulfilled with, or a throw. *)
Definition await {A : Type} (e : Event) (p : Settled A) : M A :=
  fun w =>
    let w' := {| view := view w; log := log w ++ [e] |} in
    match p with
    | Fulfilled result => (Normal result, w')
    | Rejected => (Throw, w')
    end.

Definition setCatches (l : list Fish) : M unit :=
  modify (fun v => {| catches := l; isModalOpen := isModalOpen v;
                      loading := loading v; form := form v |}).

Definition setIsModalOpen (b : bool) : M unit :=
  modify (fun v => {| catches := catches v; isModalOpen := b;
                      loading := loading v; form := form v |}).

Definition setLoading (b : bool) : M unit :=
  modify (fun v => {| catches := catches v; isModalOpen := isModalOpen v;
                      loading := b; form := form v |}).

Definition form_resetFields : M unit :=
  modify (fun v => {| catches := catches v; isModalOpen := isModalOpen v;
                      loading := loading v; form := Form.initial |}).

(** ** The handlers *)

(** [{ ...values, datecaught: values.datecaught.format('YYYY-MM-DD') }];
    reading [format] of an absent date is a [TypeError]: no object is
    built. *)
Definition catchData (values : Form.values) : option Fish :=
  match Form.datecaught values with
  | Some d =>
      Some {| _id := None;
              species := Form.species values;
              weight := Form.weight values;
              length := Form.length values;
              location := Form.location values;
              datecaught := Some (Dayjs.format d "YYYY-MM-DD");
              timeOfDay := Form.timeOfDay values;
              bait := Form.bait values;
              weather := Form.weather values;
              notes := Form.notes values |}
  | None => None
  end.

Section Handlers.

Variable api : Entity.Collaborator.

Local Open Scope js_scope.

Definition loadCatches : M unit :=
  try_finally
    (try_catch
       (setLoading true ;;
        result <- await Fish_list (Entity.list api) ;;
        if success result then setCatches (data result) else ret tt)
       (emit (message_error "Failed to load fish catches")))
    (setLoading false).

Definition handleAddCatch (values : Form.values) : M unit :=
  try_catch
    (catchData <- or_throw (catchData values) ;;
     result <- await (Fish_create catchData) (Entity.create api catchData) ;;
     if success result then
       emit (message_success "Fish catch added successfully!") ;;
       setIsModalOpen false ;;
       form_resetFields ;;
       not_awaited loadCatches
     else ret tt)
    (emit (message_error "Failed to add fish catch")).

(** Submitting the form: [onFinish] runs with the fields' values once the
    rules of the required fields pass; otherwise the errors show next to
    the fields and nothing else happens. *)
Definition onSubmit : M unit :=
  fun w =>
    if Form.valid (form (view w)) then handleAddCatch (form (view w)) w
    else (Normal tt, w).

(** The effect of the mount: [useEffect(() => { loadCatches() }, [])]. *)
Definition onMount : M unit := not_awaited loadCatches.

(** [onCancel] of the modal and [onClick] of the Cancel button. *)
Definition onCancel : M unit :=
  setIsModalOpen false ;; form_resetFields.

(** [onClick] of the Add New Catch button. *)
Definition onAddNewCatch : M unit := setIsModalOpen true.

End Handlers.

(** What is left of a log when only the calls of the entity, or only the
    notifications, are kept. *)
Definition is_call (e : Event) : bool :=
  match e with
  | Fish_list | Fish_create _ => true
  | _ => false
  end.

Definition is_create (e : Event) : bool :=
  match e with
  | Fish_create _ => true
  | _ => false
  end.

Definition is_error (e : Event) : bool :=
  match e with
  | message_error _ => true
  | _ => false
  end.

(** A call has failed when its promise is rejected or its result has
    [success = false]. *)
Definition failed {A : Type} (p : Settled (Result A)) : bool :=
  match p with
  | Fulfilled result => negb (success result)
  | Rejected => true
  end.

(** The state a handler leaves and the events it emits, from a state with
    an empty log. *)
Definition run {A : Type} (m : M A) (v : View) : World :=
  snd (m {| view := v; log := [] |}).

(** The view [loadCatches] leaves: the list replaced when the call
    succeeded, and [loading] cleared. *)
Definition loaded (api : Entity.Collaborator) (v : View) : View :=
  {| catches := match Entity.list api with
                | Fulfilled result => if success result then data result else catches v
                | Rejected => catches v
                end;
     isModalOpen := isModalOpen v;
     loading := false;
     form := form v |}.

(** A collaborator both calls of which resolve with [success = false]. *)
Definition unsuccessful (l : list Fish) (created : Fish -> option Fish) : Entity.Collaborator :=
  {| Entity.list := Fulfilled {| success := false; data := l |};
     Entity.create := fun p => Fulfilled {| success := false; data := created p |} |}.

(** ** Weights, for the statements about the statistics *)

(** The step of the [biggestFish] fold. *)
Definition keep_bigger (max fish : Fish) : Fish :=
  if JS.gt (JS.or_zero (weight fish)) (JS.or_zero (weight max)) then fish else max.

(** The record weighs more than nothing. *)
Definition positive_weight (fish : Fish) : bool :=
  JS.gt (JS.or_zero (weight fish)) 0%float.

(** The record's weight is missing or zero. *)
Definition weightless (fish : Fish) : bool :=
  match weight fish with
  | Some x => PrimFloat.is_zero x
  | None => true
  end.

(** The record's length is absent or is not an infinity. *)
Definition finite_length (fish : Fish) : bool :=
  match length fish with
  | Some x => negb (is_infinity x)
  | None => true
  end.

(** The exact sum of the weights of records that weigh whole numbers of
    pounds, [pounds] giving the number of each. *)
Definition total (pounds : Fish -> Z) (catches : list Fish) : Z :=
  fold_right (fun fish sum => (pounds fish + sum)%Z) 0%Z catches.

(** ** Doubles in [SpecFloat] *)

Module IEEE.

Local Open Scope Z_scope.

(** A double that is not NaN, as a key of three integers: the
    lexicographic order of the keys is the order of the doubles. *)
Definition key (x : spec_float) : Z * Z * Z :=
  match x with
  | S754_nan | S754_zero _ => (0, 0, 0)
  | S754_infinity false => (2, 0, 0)
  | S754_infinity true => (-2, 0, 0)
  | S754_finite false m e => (1, e, Zpos m)
  | S754_finite true m e => (-1, - e, Zneg m)
  end.

Definition lex (a b : Z * Z * Z) : comparison :=
  let '(a1, a2, a3) := a in
  let '(b1, b2, b3) := b in
  match a1 ?= b1 with
  | Eq => match a2 ?= b2 with Eq => a3 ?= b3 | c => c end
  | c => c
  end.

Definition below (a b : Z * Z * Z) : Prop :=
  let '(a1, a2, a3) := a in
  let '(b1, b2, b3) := b in
  a1 < b1 \/ (a1 = b1 /\ (a2 < b2 \/ (a2 = b2 /\ a3 < b3))).

(** The key of a number. *)
Definition rank (x : JS.number) : Z * Z * Z := key (Prim2SF x).

(** The double of a whole number [n]. *)
Definition whole (n : Z) : spec_float := binary_normalize 53 1024 n 0 false.

End IEEE.

(** ** Sample data *)

Module Sample.

Definition fish (id name : string) (w l : option JS.number) : Fish :=
  {| _id := Some id; species := Some name; weight := w; length := l;
     location := Some "Lake Michigan"; datecaught := Some "2024-07-04";
     timeOfDay := None; bait := None; weather := None; notes := None |}.

(** A catch too light to weigh: the form's weight input accepts 0. *)
Definition minnow : Fish := fish "c1" "Minnow" (Some 0%float) None.

Definition bass : Fish := fish "c2" "Bass" (Some 5%float) (Some 18.5%float).
Definition trout : Fish := fish "c3" "Trout" (Some 2%float) None.
Definition perch : Fish := fish "c4" "Perch" None (Some 9%float).

(** Three catches weighed in tenths of a pound, the step of the form's
    weight input. *)
Definition tenths : list Fish :=
  [fish "c5" "Bluegill" (Some 0.1%float) None;
   fish "c6" "Crappie" (Some 0.2%float) None;
   fish "c7" "Sunfish" (Some 0.3%float) None].

Definition tenths_reversed : list Fish := rev tenths.

Definition whole_pounds (f : Fish) : Z :=
  match species f with
  | Some name => if String.eqb name "Bass" then 5%Z
                 else if String.eqb name "Trout" then 2%Z else 0%Z
  | None => 0%Z
  end.

Definition july4 : Dayjs.t :=
  {| Dayjs.year := 2024; Dayjs.month := 6; Dayjs.date := 4; Dayjs.hour := 13;
     Dayjs.minute := 5; Dayjs.second := 0; Dayjs.millisecond := 0 |}.

Definition entered : Form.values :=
  {| Form.species := Some "Bass"; Form.weight := Some 3.5%float;
     Form.length := None; Form.datecaught := Some july4;
     Form.location := Some "Lake Michigan"; Form.bait := Some "Worms";
     Form.timeOfDay := None; Form.weather := None; Form.notes := None |}.

(** The modal open with the form filled in, over a list loaded before. *)
Definition filled : View :=
  {| catches := [trout]; isModalOpen := true; loading := false; form := entered |}.

(** The modal open with nothing entered yet. *)
Definition blank : View :=
  {| catches := [trout]; isModalOpen := true; loading := false; form := Form.initial |}.

Definition accepting : Entity.Collaborator :=
  {| Entity.list := Fulfilled {| success := true; data := [trout; bass] |};
     Entity.create := fun p => Fulfilled {| success := true; data := Some p |} |}.


Definition rejecting : Entity.Collaborator :=
  {| Entity.list := Rejected; Entity.create := fun _ => Rejected |}.

End Sample.

(** ** The Total Weight card *)


(** ** The Weight column *)

(** [ToNumber] of a property that holds a number or is absent:
    [undefined] becomes NaN. *)
Definition ToNumber (v : option JS.number) : JS.number :=
  match v with
  | Some x => x
  | None => nan
  end.

Definition weightSorter (a b : Fish) : JS.number :=
  (ToNumber (weight a) - ToNumber (weight b))%float.

(** [`${weight} lbs`]; an absent weight reads "undefined". *)
Definition weightRender (weight : option JS.number) : JS.text :=
  match weight with
  | Some x => JS.Template x " lbs"
  | None => JS.Literal "undefined lbs"
  end.

(** ** Sessions of the page *)

(** What the user does to the page: it is mounted; the Add New Catch
    button, the Cancel button (or the modal's close) and the Add Catch
    button are clicked; the fields of the form are edited, which the form
    instance records. *)
Inductive Action :=
| Mount
| AddNewCatch
| Cancel
| Fill (values : Form.values)
| Submit.

(** The form instance taking the values the user has entered. *)
Definition form_setFieldsValue (values : Form.values) : M unit :=
  modify (fun v => {| catches := catches v; isModalOpen := isModalOpen v;
                      loading := loading v; form := values |}).

Definition handle (api : Entity.Collaborator) (a : Action) : M unit :=
  match a with
  | Mount => onMount api
  | AddNewCatch => onAddNewCatch
  | Cancel => onCancel
  | Fill values => form_setFieldsValue values
  | Submit => onSubmit api
  end.

(** A session: the actions one after the other, each with the way the
    entity's calls settle while it is handled. An action is handled to
    its end, the fetch [handleAddCatch] starts included, before the next
    one comes. *)
Fixpoint session (steps : list (Entity.Collaborator * Action)) : M unit :=
  match steps with
  | [] => ret tt
  | (api, a) :: rest => bind (handle api a) (fun _ => session rest)
  end.

Definition is_list (e : Event) : bool :=
  match e with
  | Fish_list => true
  | _ => false
  end.

Definition is_success (e : Event) : bool :=
  match e with
  | message_success _ => true
  | _ => false
  end.

Definition is_mount (step : Entity.Collaborator * Action) : bool :=
  match snd step with
  | Mount => true
  | _ => false
  end.

Definition is_submit (step : Entity.Collaborator * Action) : bool :=
  match snd step with
  | Submit => true
  | _ => false
  end.

(** How many events of a log, or steps of a session, are of a kind. *)
Definition count {A : Type} (f : A -> bool) (l : list A) : nat :=
  List.length (filter f l).

(** A payload with the four required fields and no identifier. *)
Definition complete (p : Fish) : bool :=
  Form.required_text (species p) && Form.required (weight p)
  && Form.required_text (location p) && Form.required (datecaught p)
  && negb (Form.required (_id p)).

(** The payloads of the creations of a log. *)
Fixpoint created (l : list Event) : list Fish :=
  match l with
  | [] => []
  | Fish_create p :: rest => p :: created rest
  | _ :: rest => created rest
  end.

(** What one action adds: the events [ev] it logs and the view [v'] it
    leaves from the view [v]. Every payload it sends is complete; it
    fetches the list once if it is the mount, and once more for each
    success notification; it notifies a success at most once per
    creation, creates at most once and only on a submission, and shows
    at most one error per call; and it leaves [loading] down if it was. *)
Definition step_ok (a : Action) (v v' : View) (ev : list Event) : Prop :=
  Forall (fun p => complete p = true) (created ev) /\
  count is_list ev
  = (match a with Mount => 1 | _ => 0 end + count is_success ev)%nat /\
  (count is_success ev <= count is_create ev)%nat /\
  (count is_create ev <= match a with Submit => 1 | _ => 0 end)%nat /\
  (count is_error ev <= count is_call ev)%nat /\
  (loading v = false -> loading v' = false).

(** The same of a whole session. *)
Definition session_ok (steps : list (Entity.Collaborator * Action))
    (v v' : View) (ev : list Event) : Prop :=
  Forall (fun p => complete p = true) (created ev) /\
  count is_list ev = (count is_mount steps + count is_success ev)%nat /\
  (count is_success ev <= count is_create ev)%nat /\
  (count is_create ev <= count is_submit steps)%nat /\
  (count is_error ev <= count is_call ev)%nat /\
  (loading v = false -> loading v' = false).

(** ** Signs *)

(** A double that is a number and is not negative: the zero, a positive
    finite double or the positive infinity. *)
Definition not_negative (x : spec_float) : bool :=
  match x with
  | S754_zero false | S754_finite false _ _ | S754_infinity false => true
  | _ => false
  end.

(** ** Reading an ISO date *)

Module ISO.

(** The number a string of decimal digits writes. *)
Definition number_of (s : string) : option N :=
  option_map N.of_uint (NilEmpty.uint_of_string s).

Definition chars (l : list ascii) : string :=
  fold_right String EmptyString l.

(** The year, the month (from 1) and the day a string of the shape
    [YYYY-MM-DD] writes; no other string is read. *)
Definition read (s : string) : option (N * N * N) :=
  match s with
  | String y1 (String y2 (String y3 (String y4 (String h1
      (String m1 (String m2 (String h2 (String d1 (String d2 EmptyString))))))))) =>
      if (Ascii.eqb h1 "-" && Ascii.eqb h2 "-")%bool then
        match number_of (chars [y1; y2; y3; y4]),
              number_of (chars [m1; m2]), number_of (chars [d1; d2]) with
        | Some y, Some m, Some d => Some (y, m, d)
        | _, _, _ => None
        end
      else None
  | _ => None
  end.

(** A number padded to [k] digits has [k] characters and is read back. *)
Definition padded_ok (k : nat) (n : N) : bool :=
  (Nat.eqb (String.length (Dayjs.padStart k (Dayjs.digits n))) k
   && match number_of (Dayjs.padStart k (Dayjs.digits n)) with
      | Some m => N.eqb m n
      | None => false
      end)%bool.

End ISO.

(** ** A sample session *)

Module Evening.

(** The page before it is mounted. *)
Definition fresh : View :=
  {| catches := []; isModalOpen := false; loading := false; form := Form.initial |}.

(** The page is mounted; the user opens the modal, fills the form in and
    submits; the creation is rejected, and the user submits again, with
    success; the user then opens the modal once more and cancels. *)
Definition steps : list (Entity.Collaborator * Action) :=
  [(Sample.accepting, Mount);
   (Sample.accepting, AddNewCatch);
   (Sample.accepting, Fill Sample.entered);
   (Sample.rejecting, Submit);
   (Sample.accepting, Submit);
   (Sample.accepting, AddNewCatch);
   (Sample.accepting, Cancel)].

(** The payload of the form as filled in. *)
Definition sent : Fish :=
  {| _id := None; species := Some "Bass"; weight := Some 3.5%float;
     length := None; location := Some "Lake Michigan";
     datecaught := Some "2024-07-04"; timeOfDay := None;
     bait := Some "Worms"; weather := None; notes := None |}.

(** A bass and a pike of the same weight, after a lighter trout. *)
Definition pike : Fish := Sample.fish "c8" "Pike" (Some 5%float) None.

Definition tied : list Fish := [Sample.trout; Sample.bass; pike].

End Evening.

(** * Properties *)

(** ** The order of doubles *)

Module IEEEFacts.

Import IEEE.
Local Open Scope Z_scope.

Lemma lex_spec : forall a b,
  match lex a b with
  | Lt => below a b
  | Eq => a = b
  | Gt => below b a
  end.
Proof.
  intros [[a1 a2] a3] [[b1 b2] b3]. unfold lex, below.
  destruct (Z.compare_spec a1 b1); [|lia|lia].
  destruct (Z.compare_spec a2 b2); [|lia|lia].
  destruct (Z.compare_spec a3 b3); [|lia|lia].
  congruence.
Qed.

(** [SFcompare] orders doubles that are not NaN as [lex] orders their
    keys. *)
Lemma SFcompare_key : forall x y,
  x <> S754_nan -> y <> S754_nan ->
  SFcompare x y = Some (lex (key x) (key y)).
Proof.
  intros [sx|sx| |sx mx ex] [sy|sy| |sy my ey] Hx Hy; try congruence;
    try destruct sx; try destruct sy; try reflexivity.
  unfold SFcompare, key, lex. change (-1 ?= -1) with Eq.
  rewrite Z.compare_opp, (Z.compare_antisym ex ey).
  destruct (ex ?= ey); reflexivity.
Qed.

Lemma below_irrefl : forall a, ~ below a a.
Proof. intros [[a1 a2] a3]. unfold below. lia. Qed.

Lemma below_asym : forall a b, below a b -> ~ below b a.
Proof. intros [[a1 a2] a3] [[b1 b2] b3]. unfold below. lia. Qed.

Lemma below_trans_le : forall a b c, below a b -> ~ below c b -> below a c.
Proof. intros [[a1 a2] a3] [[b1 b2] b3] [[c1 c2] c3]. unfold below. lia. Qed.

Lemma not_below_trans : forall a b c, ~ below a b -> ~ below b c -> ~ below a c.
Proof. intros [[a1 a2] a3] [[b1 b2] b3] [[c1 c2] c3]. unfold below. lia. Qed.

Lemma SFltb_below : forall x y,
  x <> S754_nan -> y <> S754_nan ->
  (SFltb x y = true <-> below (key x) (key y)).
Proof.
  intros x y Hx Hy. unfold SFltb. rewrite SFcompare_key by assumption.
  pose proof (lex_spec (key x) (key y)) as L.
  destruct (lex (key x) (key y)); split; intro H; try reflexivity; try discriminate H.
  - rewrite L in H. destruct (below_irrefl _ H).
  - exact L.
  - destruct (below_asym _ _ L H).
Qed.

Lemma SFleb_not_below : forall x y,
  x <> S754_nan -> y <> S754_nan ->
  (SFleb x y = true <-> ~ below (key y) (key x)).
Proof.
  intros x y Hx Hy. unfold SFleb. rewrite SFcompare_key by assumption.
  pose proof (lex_spec (key x) (key y)) as L.
  destruct (lex (key x) (key y)); split; intro H; try reflexivity; try discriminate H.
  - rewrite L. apply below_irrefl.
  - apply below_asym, L.
  - destruct (H L).
Qed.

End IEEEFacts.

(** ** Comparisons of numbers *)

Module NumberFacts.

Import IEEE.

Lemma is_nan_spec : forall x, is_nan x = false <-> Prim2SF x <> S754_nan.
Proof.
  intro x. unfold is_nan. rewrite FloatAxioms.eqb_spec. unfold SFeqb.
  destruct (Prim2SF x) as [s|s| |s m e] eqn:E.
  - destruct s; simpl; split; congruence.
  - destruct s; simpl; split; congruence.
  - simpl. split; congruence.
  - rewrite IEEEFacts.SFcompare_key by congruence.
    pose proof (IEEEFacts.lex_spec (key (S754_finite s m e)) (key (S754_finite s m e))) as L.
    destruct (lex _ _).
    + simpl. split; congruence.
    + destruct (IEEEFacts.below_irrefl _ L).
    + destruct (IEEEFacts.below_irrefl _ L).
Qed.

(** [v || 0] is never NaN: NaN is falsy. *)
Lemma or_zero_not_nan : forall v, is_nan (JS.or_zero v) = false.
Proof.
  intros [x|]; simpl; [|reflexivity].
  unfold JS.truthy. destruct (PrimFloat.is_zero x); simpl; [reflexivity|].
  destruct (is_nan x) eqn:E; simpl; [reflexivity | exact E].
Qed.

Section Compare.

Variables x y z : JS.number.
Hypothesis Hx : is_nan x = false.
Hypothesis Hy : is_nan y = false.
Hypothesis Hz : is_nan z = false.

Lemma gt_rank : JS.gt x y = true <-> below (rank y) (rank x).
Proof.
  unfold JS.gt, rank. rewrite ltb_spec.
  apply IEEEFacts.SFltb_below; apply is_nan_spec; assumption.
Qed.

Lemma ge_rank : JS.ge x y = true <-> ~ below (rank x) (rank y).
Proof.
  unfold JS.ge, rank. rewrite leb_spec.
  apply IEEEFacts.SFleb_not_below; apply is_nan_spec; assumption.
Qed.

End Compare.

Lemma ge_refl : forall x, is_nan x = false -> JS.ge x x = true.
Proof. intros x Hx. apply ge_rank; [assumption..|]. apply IEEEFacts.below_irrefl. Qed.

Lemma gt_ge : forall x y,
  is_nan x = false -> is_nan y = false -> JS.gt x y = true -> JS.ge x y = true.
Proof.
  intros x y Hx Hy H. apply ge_rank; [assumption..|].
  apply IEEEFacts.below_asym. apply gt_rank; assumption.
Qed.

Lemma not_gt_ge : forall x y,
  is_nan x = false -> is_nan y = false -> JS.gt x y = false -> JS.ge y x = true.
Proof.
  intros x y Hx Hy H. apply ge_rank; [assumption..|].
  intro B. apply (gt_rank x y Hx Hy) in B. congruence.
Qed.

Lemma ge_trans : forall x y z,
  is_nan x = false -> is_nan y = false -> is_nan z = false ->
  JS.ge x y = true -> JS.ge y z = true -> JS.ge x z = true.
Proof.
  intros x y z Hx Hy Hz H1 H2. apply ge_rank; [assumption..|].
  apply (ge_rank x y Hx Hy) in H1. apply (ge_rank y z Hy Hz) in H2.
  exact (IEEEFacts.not_below_trans _ _ _ H1 H2).
Qed.

Lemma ge_gt_trans : forall x y z,
  is_nan x = false -> is_nan y = false -> is_nan z = false ->
  JS.ge x y = true -> JS.gt y z = true -> JS.gt x z = true.
Proof.
  intros x y z Hx Hy Hz H1 H2. apply gt_rank; [assumption..|].
  apply (ge_rank x y Hx Hy) in H1. apply (gt_rank y z Hy Hz) in H2.
  exact (IEEEFacts.below_trans_le _ _ _ H2 H1).
Qed.

End NumberFacts.

(** ** The biggest fish *)

Lemma biggestFish_fold : forall catches,
  biggestFish catches = fold_left keep_bigger catches sentinel.
Proof. reflexivity. Qed.

(** The fold from any starting record: the result is the start or a
    record of the list, and weighs no less than the start and than every
    record of the list. *)
Lemma keep_bigger_fold : forall catches max,
  (fold_left keep_bigger catches max = max \/
   In (fold_left keep_bigger catches max) catches) /\
  JS.ge (JS.or_zero (weight (fold_left keep_bigger catches max)))
        (JS.or_zero (weight max)) = true /\
  (forall fish, In fish catches ->
     JS.ge (JS.or_zero (weight (fold_left keep_bigger catches max)))
           (JS.or_zero (weight fish)) = true).
Proof.
  intro l. induction l as [|fish l IH]; intro max; simpl.
  - split; [left; reflexivity|]. split; [|intros ? []].
    apply NumberFacts.ge_refl, NumberFacts.or_zero_not_nan.
  - destruct (IH (keep_bigger max fish)) as [Hin [Hmax Hall]]. 
    assert (Hstep :
      JS.ge (JS.or_zero (weight (keep_bigger max fish))) (JS.or_zero (weight max)) = true /\
      JS.ge (JS.or_zero (weight (keep_bigger max fish))) (JS.or_zero (weight fish)) = true).
    { unfold keep_bigger.
      destruct (JS.gt (JS.or_zero (weight fish)) (JS.or_zero (weight max))) eqn:G.
      - split.
        + apply NumberFacts.gt_ge; [apply NumberFacts.or_zero_not_nan.. | exact G].
        + apply NumberFacts.ge_refl, NumberFacts.or_zero_not_nan.
      - split.
        + apply NumberFacts.ge_refl, NumberFacts.or_zero_not_nan.
        + apply NumberFacts.not_gt_ge; [apply NumberFacts.or_zero_not_nan.. | exact G]. }
    destruct Hstep as [Hs1 Hs2].
    split; [|split].
    + destruct Hin as [Hin|Hin]; [|right; right; exact Hin].
      rewrite Hin. unfold keep_bigger.
      destruct (JS.gt _ _); [right; left; reflexivity | left; reflexivity].
    + eapply NumberFacts.ge_trans;
        [apply NumberFacts.or_zero_not_nan.. | exact Hmax | exact Hs1].
    + intros r [<-|Hr].
      * eapply NumberFacts.ge_trans;
          [apply NumberFacts.or_zero_not_nan.. | exact Hmax | exact Hs2].
      * apply Hall, Hr.
Qed.

(** With no record of positive weight the strict comparison never
    replaces the initial value. *)
Lemma no_positive_weight : forall catches,
  existsb positive_weight catches = false ->
  fold_left keep_bigger catches sentinel = sentinel.
Proof.
  intro catches. induction catches as [|fish catches IH]; simpl; [reflexivity|].
  intro H. apply orb_false_iff in H. destruct H as [Hf Hrest].
  unfold keep_bigger at 2. change (JS.or_zero (weight sentinel)) with 0%float.
  unfold positive_weight in Hf. rewrite Hf. apply IH, Hrest.
Qed.

Lemma weightless_not_positive : forall fish,
  weightless fish = true -> positive_weight fish = false.
Proof.
  intros fish H. unfold weightless in H. unfold positive_weight, JS.or_zero.
  destruct (weight fish) as [x|]; [|reflexivity].
  unfold JS.truthy. rewrite H. reflexivity.
Qed.

(** C3 (as amended): when some record has a positive weight,
    [biggestFish] is a record of the sequence that weighs (a missing
    weight counting as 0) no less than every record of it, and the card
    shows its weight; when none has, whether the sequence is empty or
    not, [biggestFish] is the initial value [{ weight: 0 }] and the card
    shows "None yet". *)
Theorem biggestFish_positive_or_sentinel : forall catches,
  if existsb positive_weight catches
  then In (biggestFish catches) catches /\
       (forall fish, In fish catches ->
          JS.ge (JS.or_zero (weight (biggestFish catches)))
                (JS.or_zero (weight fish)) = true) /\
       biggestFishStatistic catches =
         JS.Template (JS.or_zero (weight (biggestFish catches))) " lbs"
  else biggestFish catches = sentinel /\
       biggestFishStatistic catches = JS.Literal "None yet".
Proof.
  intro catches. destruct (existsb positive_weight catches) eqn:E.
  - apply existsb_exists in E. destruct E as [fish [Hin Hpos]].
    destruct (keep_bigger_fold catches sentinel) as [Hwhere [_ Hall]].
    rewrite <- biggestFish_fold in Hwhere, Hall.
    assert (Hbig : JS.gt (JS.or_zero (weight (biggestFish catches))) 0%float = true).
    { eapply NumberFacts.ge_gt_trans;
        [apply NumberFacts.or_zero_not_nan.. | reflexivity | apply Hall, Hin | exact Hpos]. }
    split; [|split].
    + destruct Hwhere as [Hs|Hi]; [|exact Hi].
      rewrite Hs in Hbig. discriminate Hbig.
    + exact Hall.
    + unfold biggestFishStatistic, biggestFishFormatter. rewrite Hbig. reflexivity.
  - unfold biggestFishStatistic.
    rewrite biggestFish_fold, (no_positive_weight _ E). split; reflexivity.
Qed.

(** C3, as stated, fails on a list of one catch of weight 0: the list
    is not empty, [biggestFish] is none of its records, and the card
    shows "None yet". *)
Lemma biggestFish_weightless_catch :
  [Sample.minnow] <> [] /\
  ~ In (biggestFish [Sample.minnow]) [Sample.minnow] /\
  biggestFishStatistic [Sample.minnow] = JS.Literal "None yet".
Proof.
  split; [discriminate|]. split; [|reflexivity].
  change (biggestFish [Sample.minnow]) with sentinel.
  intros [H|[]]. discriminate H.
Qed.

(** C10: on a non-empty sequence in which every weight is zero or
    missing, [biggestFish] is the initial value [{ weight: 0 }], the card
    shows "None yet", and no record that carries an [_id] is the biggest
    fish. *)
Theorem biggestFish_all_weightless : forall catches,
  catches <> [] ->
  (forall fish, In fish catches -> weightless fish = true) ->
  biggestFish catches = sentinel /\
  biggestFishStatistic catches = JS.Literal "None yet" /\
  (forall fish, In fish catches -> _id fish <> None -> biggestFish catches <> fish).
Proof.
  intros catches _ H.
  assert (E : existsb positive_weight catches = false).
  { destruct (existsb positive_weight catches) eqn:E; [|reflexivity].
    apply existsb_exists in E. destruct E as [fish [Hin Hpos]].
    rewrite (weightless_not_positive fish (H fish Hin)) in Hpos. discriminate Hpos. }
  assert (B : biggestFish catches = sentinel).
  { rewrite biggestFish_fold. apply no_positive_weight, E. }
  split; [exact B|]. split.
  - unfold biggestFishStatistic. rewrite B. reflexivity.
  - intros fish _ Hid Heq. rewrite B in Heq. rewrite <- Heq in Hid.
    apply Hid. reflexivity.
Qed.

Lemma biggestFish_all_weightless_witness :
  [Sample.minnow; Sample.perch] <> [] /\
  biggestFish [Sample.minnow; Sample.perch] = sentinel /\
  biggestFishStatistic [Sample.minnow; Sample.perch] = JS.Literal "None yet" /\
  (forall fish, In fish [Sample.minnow; Sample.perch] -> _id fish <> None ->
     biggestFish [Sample.minnow; Sample.perch] <> fish).
Proof.
  split; [discriminate|].
  apply (biggestFish_all_weightless [Sample.minnow; Sample.perch]).
  - discriminate.
  - intros fish [<-|[<-|[]]]; reflexivity.
Defined.

Example biggestFish_of_three :
  biggestFish [Sample.trout; Sample.bass; Sample.perch] = Sample.bass /\
  biggestFishStatistic [Sample.trout; Sample.bass; Sample.perch]
  = JS.Template 5%float " lbs".
Proof. split; reflexivity. Qed.

(** ** The average weight *)

Module ToFixedFacts.

Local Open Scope Z_scope.



End ToFixedFacts.



Example averageWeight_of_three : forall Number_toString,
  averageWeight Number_toString [Sample.bass; Sample.trout; Sample.perch] = JS.Str "2.33" /\
  averageWeight Number_toString [] = JS.Num 0%float.
Proof. intro ts. split; reflexivity. Qed.

Example toFixed_examples : forall Number_toString,
  JS.toFixed Number_toString 1.005%float 2 = "1.00" /\
  JS.toFixed Number_toString 8.345%float 2 = "8.35" /\
  JS.toFixed Number_toString 0.05%float 2 = "0.05" /\
  JS.toFixed Number_toString 2.5%float 0 = "3" /\
  JS.toFixed Number_toString (-0.001)%float 2 = "-0.00".
Proof. intro ts. repeat split; reflexivity. Qed.

(** ** The Length column *)

Module RoundFacts.

Local Open Scope Z_scope.

(** Rounding never makes a mantissa negative, so the NaN branch of
    [binary_round_aux] is dead on a mantissa that is not negative. *)

Lemma shr_1_nonneg : forall mrs, 0 <= shr_m mrs -> 0 <= shr_m (shr_1 mrs).
Proof.
  intros [m r s]; simpl. destruct m as [|[p|p|]|p]; simpl; lia.
Qed.

Lemma iter_pos_nonneg : forall p mrs,
  0 <= shr_m mrs -> 0 <= shr_m (iter_pos shr_1 p mrs).
Proof.
  induction p as [p IH|p IH|]; intros mrs H; simpl.
  - apply IH, IH, shr_1_nonneg, H.
  - apply IH, IH, H.
  - apply shr_1_nonneg, H.
Qed.

Lemma shr_fexp_nonneg : forall prec emax m e l,
  0 <= m -> 0 <= shr_m (fst (shr_fexp prec emax m e l)).
Proof.
  intros prec emax m e l H. unfold shr_fexp, shr.
  assert (H0 : 0 <= shr_m (shr_record_of_loc m l)).
  { destruct l as [|[]]; simpl; exact H. }
  destruct (fexp prec emax (Zdigits2 m + e) - e); simpl; try exact H0.
  apply iter_pos_nonneg, H0.
Qed.

Lemma round_nearest_even_nonneg : forall m l, 0 <= m -> 0 <= round_nearest_even m l.
Proof.
  intros m l H. unfold round_nearest_even.
  destruct l as [|[]]; try destruct (Z.even m); lia.
Qed.

Lemma binary_round_aux_not_nan : forall prec emax s m e l,
  0 <= m -> binary_round_aux prec emax s m e l <> S754_nan.
Proof.
  intros prec emax s m e l H. unfold binary_round_aux.
  pose proof (shr_fexp_nonneg prec emax m e l H) as H1.
  destruct (shr_fexp prec emax m e l) as [mrs' e']. simpl in H1.
  pose proof (shr_fexp_nonneg prec emax _ e' loc_Exact
                (round_nearest_even_nonneg _ (loc_of_shr_record mrs') H1)) as H2.
  destruct (shr_fexp prec emax (round_nearest_even (shr_m mrs') (loc_of_shr_record mrs')) e' loc_Exact)
    as [mrs'' e'']. simpl in H2.
  destruct (shr_m mrs'') as [|p|p]; [discriminate | | lia].
  destruct (e'' <=? emax - prec); discriminate.
Qed.

Lemma binary_normalize_not_nan : forall prec emax m e szero,
  binary_normalize prec emax m e szero <> S754_nan.
Proof.
  intros prec emax m e szero. unfold binary_normalize, binary_round.
  destruct m as [|p|p]; [discriminate | |].
  - destruct (shl_align p e _) as [mz ez]. apply binary_round_aux_not_nan. lia.
  - destruct (shl_align p e _) as [mz ez]. apply binary_round_aux_not_nan. lia.
Qed.

(** The difference of two doubles is NaN only if one of them is, or both
    are infinite. *)
Lemma SFsub_not_nan : forall prec emax x y,
  x <> S754_nan -> y <> S754_nan ->
  (forall s, x <> S754_infinity s) \/ (forall s, y <> S754_infinity s) ->
  SFsub prec emax x y <> S754_nan.
Proof.
  intros prec emax x y Hx Hy Hinf.
  destruct x as [sx|sx| |sx mx ex], y as [sy|sy| |sy my ey]; try congruence;
    simpl; try discriminate.
  - destruct sx, sy; discriminate.
  - exfalso. destruct Hinf as [H|H]; [exact (H sx eq_refl) | exact (H sy eq_refl)].
  - apply binary_normalize_not_nan.
Qed.

End RoundFacts.

Lemma is_infinity_spec : forall x s,
  is_infinity x = false -> Prim2SF x <> S754_infinity s.
Proof.
  intros x s H E. unfold is_infinity in H.
  rewrite FloatAxioms.eqb_spec, abs_spec, E in H. vm_compute in H. discriminate H.
Qed.

Lemma or_zero_finite : forall fish s,
  finite_length fish = true ->
  Prim2SF (JS.or_zero (length fish)) <> S754_infinity s.
Proof.
  intros fish s H. unfold finite_length in H.
  destruct (length fish) as [x|]; simpl.
  - destruct (JS.truthy x).
    + apply is_infinity_spec. apply negb_true_iff, H.
    + vm_compute. discriminate.
  - vm_compute. discriminate.
Qed.

(** The comparator yields no NaN as soon as one of the two lengths is
    absent or finite. *)
Lemma lengthSorter_not_nan : forall a b,
  finite_length a = true \/ finite_length b = true ->
  is_nan (lengthSorter a b) = false.
Proof.
  intros a b H. apply NumberFacts.is_nan_spec. unfold lengthSorter. rewrite sub_spec.
  apply RoundFacts.SFsub_not_nan.
  - apply NumberFacts.is_nan_spec, NumberFacts.or_zero_not_nan.
  - apply NumberFacts.is_nan_spec, NumberFacts.or_zero_not_nan.
  - destruct H as [H|H]; [left | right]; intro s; apply or_zero_finite, H.
Qed.

Lemma lengthSorter_not_nan_witness :
  (finite_length Sample.bass = true \/ finite_length Sample.perch = true) /\
  is_nan (lengthSorter Sample.bass Sample.perch) = false.
Proof.
  assert (H : finite_length Sample.bass = true \/ finite_length Sample.perch = true)
    by (left; reflexivity).
  split; [exact H|].
  exact (lengthSorter_not_nan Sample.bass Sample.perch H).
Defined.

(** C9: a record [a] without a length is compared as if its length were
    0, on either side of the comparator and against any record [b]; the
    comparison is never NaN; and its Length cell shows "N/A". *)
Theorem lengthSorter_absent_length : forall a b,
  length a = None ->
  lengthSorter a b = (0 - JS.or_zero (length b))%float /\
  lengthSorter b a = (JS.or_zero (length b) - 0)%float /\
  is_nan (lengthSorter a b) = false /\
  is_nan (lengthSorter b a) = false /\
  lengthRender (length a) = JS.Literal "N/A".
Proof.
  intros a b E.
  assert (F : finite_length a = true) by (unfold finite_length; rewrite E; reflexivity).
  split; [|split; [|split; [|split]]].
  - unfold lengthSorter. rewrite E. reflexivity.
  - unfold lengthSorter. rewrite E. reflexivity.
  - apply lengthSorter_not_nan. left. exact F.
  - apply lengthSorter_not_nan. right. exact F.
  - rewrite E. reflexivity.
Qed.

Lemma lengthSorter_absent_length_witness :
  length Sample.trout = None /\
  lengthSorter Sample.trout Sample.bass = (0 - 18.5)%float /\
  lengthSorter Sample.bass Sample.trout = (18.5 - 0)%float /\
  is_nan (lengthSorter Sample.trout Sample.bass) = false /\
  is_nan (lengthSorter Sample.bass Sample.trout) = false /\
  lengthRender (length Sample.trout) = JS.Literal "N/A".
Proof.
  split; [reflexivity|].
  exact (lengthSorter_absent_length Sample.trout Sample.bass eq_refl).
Defined.

Example lengthSorter_of_two_absent :
  lengthSorter Sample.trout Sample.minnow = 0%float /\
  lengthRender (length Sample.bass) = JS.Template 18.5%float inch.
Proof. split; reflexivity. Qed.

(** ** Whole numbers add exactly *)

(** The sum of two doubles is rounded to 53 bits. Doubles that hold whole
    numbers whose sum is below [2^53] add without rounding: this is what
    makes a sum of whole weights independent of the order. *)

Module ExactFacts.

Import IEEE.

Local Open Scope Z_scope.

Lemma digits2_size : forall p, digits2_pos p = Pos.size p.
Proof. induction p; simpl; congruence. Qed.

(** The number of binary digits [d] of [p]: [2^(d-1) <= p < 2^d]. *)
Lemma digits2_bounds : forall p,
  2 ^ (Zpos (digits2_pos p) - 1) <= Zpos p < 2 ^ Zpos (digits2_pos p).
Proof.
  intro p. rewrite digits2_size. split.
  - pose proof (Pos.size_le p) as H.
    assert (H' : 2 ^ Zpos (Pos.size p) <= 2 * Zpos p).
    { change (2 * Zpos p) with (Zpos p~0). rewrite <- Pos2Z.inj_pow. apply Pos2Z.pos_le_pos, H. }
    replace (Zpos (Pos.size p)) with (Z.succ (Zpos (Pos.size p) - 1)) in H' by lia.
    rewrite Z.pow_succ_r in H' by lia. lia.
  - pose proof (Pos.size_gt p) as H. rewrite <- Pos2Z.inj_pow. apply Pos2Z.pos_lt_pos, H.
Qed.

Lemma digits2_unique : forall p d,
  2 ^ (d - 1) <= Zpos p < 2 ^ d -> Zpos (digits2_pos p) = d.
Proof.
  intros p d [Hl Hu]. destruct (digits2_bounds p) as [Hl' Hu'].
  assert (0 < d).
  { destruct (Z.lt_trichotomy d 0) as [H|[H|H]]; [|subst|exact H].
    - rewrite Z.pow_neg_r in Hu by lia. lia.
    - simpl in Hu. lia. }
  destruct (Z.lt_trichotomy (Zpos (digits2_pos p)) d) as [H1|[H1|H1]]; [|exact H1|].
  - exfalso. assert (2 ^ Zpos (digits2_pos p) <= 2 ^ (d - 1)) by (apply Z.pow_le_mono_r; lia). lia.
  - exfalso. assert (2 ^ d <= 2 ^ (Zpos (digits2_pos p) - 1)) by (apply Z.pow_le_mono_r; lia). lia.
Qed.

Lemma iter_xO : forall k p, Zpos (Pos.iter xO p k) = Zpos p * 2 ^ Zpos k.
Proof.
  intros k p. induction k as [|k IH] using Pos.peano_ind.
  - simpl. lia.
  - rewrite Pos.iter_succ, Pos2Z.inj_succ, Z.pow_succ_r by lia.
    change (Zpos (Pos.iter xO p k)~0) with (2 * Zpos (Pos.iter xO p k)). rewrite IH. ring.
Qed.

Lemma iter_pos_nat : forall (A : Type) (f : A -> A) p x,
  iter_pos f p x = Nat.iter (Pos.to_nat p) f x.
Proof.
  intros A f. induction p as [p IH|p IH|]; intro x; cbn [iter_pos].
  - rewrite 2 IH, Pos2Nat.inj_xI, <- Nat.iter_add, <- Nat.iter_succ_r.
    f_equal. lia.
  - rewrite 2 IH, Pos2Nat.inj_xO, <- Nat.iter_add. f_equal. lia.
  - reflexivity.
Qed.

(** Shifting right a mantissa whose low bits are zero loses nothing. *)
Lemma shr_exact : forall j m,
  0 <= m ->
  Nat.iter j shr_1 {| shr_m := m * 2 ^ Z.of_nat j; shr_r := false; shr_s := false |}
  = {| shr_m := m; shr_r := false; shr_s := false |}.
Proof.
  induction j as [|j IH]; intros m Hm.
  - simpl. f_equal. lia.
  - rewrite Nat.iter_succ_r.
    replace (m * 2 ^ Z.of_nat (S j)) with (2 * (m * 2 ^ Z.of_nat j))
      by (rewrite Nat2Z.inj_succ, Z.pow_succ_r by lia; ring).
    assert (H : 0 <= m * 2 ^ Z.of_nat j) by (apply Z.mul_nonneg_nonneg; [lia | apply Z.pow_nonneg; lia]).
    destruct (m * 2 ^ Z.of_nat j) as [|q|q] eqn:E; [| |lia].
    + simpl. rewrite <- E. apply IH, Hm.
    + simpl. rewrite <- E. apply IH, Hm.
Qed.

Lemma fexp_normal : forall x, -1074 <= x - 53 -> fexp 53 1024 x = x - 53.
Proof. intros x H. unfold fexp, emin. lia. Qed.

(** A mantissa of 53 digits is left as it is. *)
Lemma shr_fexp_53 : forall q e,
  Zpos (digits2_pos q) = 53 -> -1074 <= e ->
  shr_fexp 53 1024 (Zpos q) e loc_Exact
  = ({| shr_m := Zpos q; shr_r := false; shr_s := false |}, e).
Proof.
  intros q e Hd He. unfold shr_fexp. cbn [Zdigits2]. rewrite Hd.
  rewrite fexp_normal by lia. replace (53 + e - 53 - e) with 0 by lia. reflexivity.
Qed.

Lemma binary_round_aux_53 : forall q e,
  Zpos (digits2_pos q) = 53 -> -1074 <= e <= 971 ->
  binary_round_aux 53 1024 false (Zpos q) e loc_Exact = S754_finite false q e.
Proof.
  intros q e Hd He. unfold binary_round_aux.
  rewrite shr_fexp_53 by lia. cbn [shr_m loc_of_shr_record round_nearest_even].
  rewrite shr_fexp_53 by lia. cbn [shr_m].
  replace (e <=? 1024 - 53) with true by (symmetry; apply Z.leb_le; lia). reflexivity.
Qed.

(** Rounding a mantissa [p] of [d] digits at exponent [e], when no bit is
    lost: left as it is when [d = 53], shifted left when [d < 53], and
    shifted right, its low [d - 53] bits being zero, when [d > 53]. *)
Lemma binary_round_exact : forall p e,
  let d := Zpos (digits2_pos p) in
  -1074 <= d + e - 53 -> d + e <= 1024 ->
  (53 < d -> exists q, Zpos p = q * 2 ^ (d - 53)) ->
  exists m,
    binary_round 53 1024 false p e = S754_finite false m (d + e - 53) /\
    Zpos m * 2 ^ Z.max 0 (d - 53) = Zpos p * 2 ^ Z.max 0 (53 - d).
Proof.
  intros p e d Hlo Hhi Hex. unfold binary_round. fold d.
  rewrite fexp_normal by lia. unfold shl_align.
  destruct (digits2_bounds p) as [Pl Pu]. fold d in Pl, Pu.
  destruct (d + e - 53 - e) as [|delta|delta] eqn:E.
  - (* d = 53 *)
    assert (Hd : d = 53) by lia. exists p. split.
    + rewrite binary_round_aux_53 by (fold d; lia). f_equal. lia.
    + rewrite Hd. simpl. reflexivity.
  - (* d > 53: the low bits are dropped *)
    assert (Hd : d = 53 + Zpos delta) by lia.
    destruct (Hex ltac:(lia)) as [q Hq].
    replace (d - 53) with (Zpos delta) in Hq by lia.
    assert (P2 : 0 < 2 ^ Zpos delta) by (apply Z.pow_pos_nonneg; lia).
    assert (Hqpos : 0 < q) by nia.
    destruct q as [|q|q]; try lia.
    assert (Hdq : Zpos (digits2_pos q) = 53).
    { apply digits2_unique. rewrite Hd, Hq in Pl, Pu.
      replace (53 + Zpos delta - 1) with (52 + Zpos delta) in Pl by lia.
      rewrite Z.pow_add_r in Pl, Pu by lia. split; nia. }
    exists q. split.
    + unfold binary_round_aux, shr_fexp at 1. cbn [Zdigits2]. fold d.
      rewrite fexp_normal by lia. rewrite E. unfold shr. rewrite iter_pos_nat.
      cbn [shr_record_of_loc]. rewrite Hq.
      assert (Hshr : Nat.iter (Pos.to_nat delta) shr_1
                       {| shr_m := Zpos q * 2 ^ Zpos delta; shr_r := false; shr_s := false |}
                     = {| shr_m := Zpos q; shr_r := false; shr_s := false |}).
      { rewrite <- (positive_nat_Z delta). apply shr_exact. lia. }
      rewrite Hshr.
      cbn [shr_m loc_of_shr_record round_nearest_even].
      rewrite shr_fexp_53 by lia. cbn [shr_m].
      replace (e + Zpos delta <=? 1024 - 53) with true by (symmetry; apply Z.leb_le; lia).
      f_equal. lia.
    + rewrite Hd. replace (Z.max 0 (53 + Zpos delta - 53)) with (Zpos delta) by lia.
      replace (Z.max 0 (53 - (53 + Zpos delta))) with 0 by lia. rewrite Hq. simpl. lia.
  - (* d < 53: the mantissa is shifted left *)
    assert (Hd : d = 53 - Zpos delta) by lia.
    assert (P2 : 0 < 2 ^ Zpos delta) by (apply Z.pow_pos_nonneg; lia).
    assert (Hdq : Zpos (digits2_pos (Pos.iter xO p delta)) = 53).
    { apply digits2_unique. rewrite iter_xO.
      replace 53 with (d + Zpos delta) at 2 by lia.
      replace (53 - 1) with (d - 1 + Zpos delta) by lia.
      assert (0 < d) by (unfold d; lia).
      rewrite 2 Z.pow_add_r by lia. split; nia. }
    exists (Pos.iter xO p delta). split.
    + cbn [fst snd]. rewrite binary_round_aux_53 by lia. reflexivity.
    + rewrite iter_xO, Hd.
      replace (Z.max 0 (53 - Zpos delta - 53)) with 0 by lia.
      replace (Z.max 0 (53 - (53 - Zpos delta))) with (Zpos delta) by lia. simpl. lia.
Qed.

Lemma digits2_whole : forall p, Zpos p < 2 ^ 53 -> Zpos (digits2_pos p) <= 53.
Proof.
  intros p H. destruct (digits2_bounds p) as [Pl _].
  destruct (Z.le_gt_cases (Zpos (digits2_pos p)) 53) as [L|G]; [exact L|].
  exfalso. assert (2 ^ 53 <= 2 ^ (Zpos (digits2_pos p) - 1)) by (apply Z.pow_le_mono_r; lia). lia.
Qed.

Lemma whole_finite : forall n,
  0 < n < 2 ^ 53 ->
  exists m e, whole n = S754_finite false m e /\ -52 <= e <= 0 /\ Zpos m = n * 2 ^ (- e).
Proof.
  intros [|p|p] [Hn Hu]; try lia. unfold whole, binary_normalize.
  pose proof (digits2_whole p Hu) as Hd.
  assert (0 < Zpos (digits2_pos p)) by lia.
  destruct (binary_round_exact p 0) as [m [Hm Heq]]; try lia.
  exists m, (Zpos (digits2_pos p) + 0 - 53). split; [exact Hm|]. split; [lia|].
  rewrite Z.max_l in Heq by lia. rewrite Z.max_r in Heq by lia.
  rewrite Z.pow_0_r, Z.mul_1_r in Heq. rewrite Heq. f_equal. f_equal. lia.
Qed.

Lemma whole_scaled : forall n k,
  0 < n < 2 ^ 53 -> 0 <= k <= 52 ->
  binary_normalize 53 1024 (n * 2 ^ k) (- k) false = whole n.
Proof.
  intros [|p|p] k [Hn Hu] Hk; try lia.
  assert (P2 : 0 < 2 ^ k) by (apply Z.pow_pos_nonneg; lia).
  destruct (Zpos p * 2 ^ k) as [|P|P] eqn:EP; try lia.
  unfold whole, binary_normalize.
  pose proof (digits2_whole p Hu) as Hd.
  destruct (digits2_bounds p) as [Pl Pu].
  set (d := Zpos (digits2_pos p)) in *.
  assert (Hd0 : 0 < d) by (unfold d; lia).
  assert (HdP : Zpos (digits2_pos P) = d + k).
  { apply digits2_unique. rewrite <- EP.
    replace (d + k - 1) with (d - 1 + k) by lia.
    rewrite 2 Z.pow_add_r by lia. split; nia. }
  destruct (binary_round_exact p 0) as [m [Hm Heq]]; fold d; try lia.
  destruct (binary_round_exact P (- k)) as [m' [Hm' Heq']]; rewrite ?HdP; try lia.
  { intros Hbig. exists (Zpos p * 2 ^ (53 - d)). rewrite <- EP.
    rewrite <- Z.mul_assoc, <- Z.pow_add_r by lia. f_equal. f_equal. lia. }
  rewrite Hm, Hm'. fold d in Heq. rewrite HdP in Heq'. rewrite <- EP in Heq'.
  rewrite (Z.max_l 0 (d - 53)) in Heq by lia. rewrite (Z.max_r 0 (53 - d)) in Heq by lia.
  rewrite Z.pow_0_r, Z.mul_1_r in Heq.
  assert (Hmm : Zpos m' = Zpos m).
  { rewrite Heq. destruct (Z.le_gt_cases (d + k) 53) as [L|G].
    - rewrite (Z.max_l 0 (d + k - 53)) in Heq' by lia.
      rewrite (Z.max_r 0 (53 - (d + k))) in Heq' by lia.
      rewrite Z.pow_0_r, Z.mul_1_r in Heq'. rewrite Heq'.
      rewrite <- Z.mul_assoc, <- Z.pow_add_r by lia. f_equal. f_equal. lia.
    - rewrite (Z.max_r 0 (d + k - 53)) in Heq' by lia.
      rewrite (Z.max_l 0 (53 - (d + k))) in Heq' by lia.
      rewrite Z.pow_0_r, Z.mul_1_r in Heq'.
      assert (P3 : 0 < 2 ^ (d + k - 53)) by (apply Z.pow_pos_nonneg; lia).
      apply (Z.mul_reg_r _ _ (2 ^ (d + k - 53))); [lia|].
      rewrite Heq'. rewrite <- Z.mul_assoc, <- Z.pow_add_r by lia. f_equal. f_equal. lia. }
  injection Hmm as ->. f_equal. lia.
Qed.

Lemma shl_align_fst : forall m e e',
  e' <= e -> Zpos (fst (shl_align m e e')) = Zpos m * 2 ^ (e - e').
Proof.
  intros m e e' H. unfold shl_align.
  destruct (e' - e) as [|delta|delta] eqn:E; try lia.
  - replace (e - e') with 0 by lia. simpl. lia.
  - cbn [fst]. rewrite iter_xO. f_equal. f_equal. lia.
Qed.

(** Whole numbers add without rounding while the sum is below [2^53]. *)
Lemma SFadd_whole : forall a b,
  0 <= a -> 0 <= b -> a + b < 2 ^ 53 ->
  SFadd 53 1024 (whole a) (whole b) = whole (a + b).
Proof.
  intros a b Ha Hb Hab.
  destruct (Z.eq_dec a 0) as [->|Na].
  { change (whole 0) with (S754_zero false). rewrite Z.add_0_l.
    destruct (Z.eq_dec b 0) as [->|Nb]; [reflexivity|].
    destruct (whole_finite b ltac:(lia)) as [m [e [-> _]]]. reflexivity. }
  destruct (Z.eq_dec b 0) as [->|Nb].
  { change (whole 0) with (S754_zero false). rewrite Z.add_0_r.
    destruct (whole_finite a ltac:(lia)) as [m [e [-> _]]]. reflexivity. }
  destruct (whole_finite a ltac:(lia)) as [ma [ea [Ea [Hea Hma]]]].
  destruct (whole_finite b ltac:(lia)) as [mb [eb [Eb [Heb Hmb]]]].
  rewrite Ea, Eb. cbn [SFadd cond_Zopp].
  rewrite 2 shl_align_fst by lia. rewrite Hma, Hmb.
  set (ez := Z.min ea eb).
  rewrite <- 2 Z.mul_assoc, <- 2 Z.pow_add_r by lia.
  replace (- ea + (ea - ez)) with (- ez) by lia.
  replace (- eb + (eb - ez)) with (- ez) by lia.
  rewrite <- Z.mul_add_distr_r.
  pose proof (whole_scaled (a + b) (- ez) ltac:(lia) ltac:(lia)) as W.
  rewrite Z.opp_involutive in W. exact W.
Qed.

End ExactFacts.

Module WholeFacts.

Local Open Scope Z_scope.

Lemma of_Z_spec : forall n, 0 <= n < 2 ^ 53 -> Prim2SF (JS.of_Z n) = IEEE.whole n.
Proof.
  intros n H. unfold JS.of_Z. rewrite of_uint63_spec, Uint63.of_Z_spec.
  rewrite Z.mod_small; [reflexivity|].
  change Uint63.wB with (2 ^ 63). assert (2 ^ 53 < 2 ^ 63) by (apply Z.pow_lt_mono_r; lia). lia.
Qed.

Lemma add_of_Z : forall a b,
  0 <= a -> 0 <= b -> a + b < 2 ^ 53 ->
  (JS.of_Z a + JS.of_Z b)%float = JS.of_Z (a + b).
Proof.
  intros a b Ha Hb Hab. apply Prim2SF_inj.
  rewrite add_spec, 3 of_Z_spec by lia. apply ExactFacts.SFadd_whole; assumption.
Qed.

Lemma or_zero_of_Z : forall n, 0 <= n < 2 ^ 53 -> JS.or_zero (Some (JS.of_Z n)) = JS.of_Z n.
Proof.
  intros n H. unfold JS.or_zero, JS.truthy.
  destruct (Z.eq_dec n 0) as [->|N]; [reflexivity|].
  destruct (ExactFacts.whole_finite n ltac:(lia)) as [m [e [E _]]].
  assert (Hz : PrimFloat.is_zero (JS.of_Z n) = false).
  { unfold PrimFloat.is_zero. rewrite FloatAxioms.eqb_spec, of_Z_spec, E by lia. reflexivity. }
  assert (Hn : PrimFloat.is_nan (JS.of_Z n) = false).
  { apply NumberFacts.is_nan_spec. rewrite of_Z_spec, E by lia. discriminate. }
  rewrite Hz, Hn. reflexivity.
Qed.

End WholeFacts.

(** ** The total weight *)

Local Open Scope Z_scope.

Lemma total_nonneg : forall pounds catches,
  (forall fish, In fish catches -> 0 <= pounds fish) -> 0 <= total pounds catches.
Proof.
  intros pounds catches. induction catches as [|fish catches IH]; simpl; intro H; [lia|].
  pose proof (H fish (or_introl eq_refl)). pose proof (IH (fun f Hf => H f (or_intror Hf))). lia.
Qed.

Lemma total_permutation : forall pounds catches catches',
  Permutation catches catches' -> total pounds catches = total pounds catches'.
Proof.
  intros pounds catches catches' P. induction P; simpl; lia.
Qed.

Lemma totalWeight_from : forall pounds catches acc,
  0 <= acc ->
  (forall fish, In fish catches ->
     0 <= pounds fish /\ JS.or_zero (weight fish) = JS.of_Z (pounds fish)) ->
  acc + total pounds catches < 2 ^ 53 ->
  fold_left (fun sum fish => (sum + JS.or_zero (weight fish))%float) catches (JS.of_Z acc)
  = JS.of_Z (acc + total pounds catches).
Proof.
  intros pounds catches. induction catches as [|fish catches IH]; intros acc Hacc Hw Hlt; simpl.
  - f_equal. lia.
  - destruct (Hw fish (or_introl eq_refl)) as [Hp Hfish].
    assert (Hrest : forall f, In f catches ->
              0 <= pounds f /\ JS.or_zero (weight f) = JS.of_Z (pounds f))
      by (intros f Hf; apply Hw; right; exact Hf).
    pose proof (total_nonneg pounds catches (fun f Hf => proj1 (Hrest f Hf))) as Ht.
    simpl in Hlt.
    rewrite Hfish, WholeFacts.add_of_Z by lia.
    rewrite IH by (try assumption; lia). f_equal. lia.
Qed.

Lemma totalWeight_snoc : forall catches fish,
  totalWeight (catches ++ [fish])
  = (totalWeight catches + JS.or_zero (weight fish))%float.
Proof.
  intros catches fish. unfold totalWeight, JS.reduce. rewrite fold_left_app. reflexivity.
Qed.

Lemma totalWeight_whole : forall (pounds : Fish -> Z) catches,
  (forall fish, In fish catches ->
     0 <= pounds fish /\ JS.or_zero (weight fish) = JS.of_Z (pounds fish)) ->
  total pounds catches < 2 ^ 53 ->
  totalWeight catches = JS.of_Z (total pounds catches).
Proof.
  intros pounds catches Hw Hlt.
  unfold totalWeight, JS.reduce. change 0%float with (JS.of_Z 0).
  rewrite (totalWeight_from pounds) by (try assumption; lia). reflexivity.
Qed.

(** C5 (as amended): [totalWeight] is the sum of the weights, a missing
    weight counting as 0, added one record after the other from 0 in
    double arithmetic. When every weight is a whole number of pounds and
    the weights add up to less than [2^53], no addition rounds:
    [totalWeight] is the exact sum, the same for every reordering of the
    sequence. *)
Theorem totalWeight_sum_in_order : forall catches,
  totalWeight [] = 0%float /\
  (forall fish,
     totalWeight (catches ++ [fish])
     = (totalWeight catches + JS.or_zero (weight fish))%float) /\
  (forall (pounds : Fish -> Z) catches',
     Permutation catches catches' ->
     (forall fish, In fish catches ->
        0 <= pounds fish /\ JS.or_zero (weight fish) = JS.of_Z (pounds fish)) ->
     total pounds catches < 2 ^ 53 ->
     totalWeight catches = JS.of_Z (total pounds catches) /\
     totalWeight catches' = totalWeight catches).
Proof.
  intro catches. split; [reflexivity|]. split; [apply totalWeight_snoc|].
  intros pounds catches' P Hw Hlt.
  rewrite (totalWeight_whole pounds catches Hw Hlt). split; [reflexivity|].
  rewrite (total_permutation pounds catches catches' P).
  apply totalWeight_whole.
  - intros fish Hin. apply Hw.
    apply Permutation_in with catches'; [symmetry; exact P | exact Hin].
  - rewrite <- (total_permutation pounds catches catches' P). exact Hlt.
Qed.

Lemma totalWeight_sum_in_order_witness :
  Permutation [Sample.bass; Sample.trout; Sample.perch]
              [Sample.perch; Sample.bass; Sample.trout] /\
  totalWeight [Sample.bass; Sample.trout; Sample.perch] = 7%float /\
  totalWeight [Sample.perch; Sample.bass; Sample.trout]
  = totalWeight [Sample.bass; Sample.trout; Sample.perch].
Proof.
  assert (P : Permutation [Sample.bass; Sample.trout; Sample.perch]
                          [Sample.perch; Sample.bass; Sample.trout]).
  { apply Permutation_sym. apply (Permutation_cons_app [Sample.bass; Sample.trout] []).
    apply Permutation_refl. }
  split; [exact P|].
  apply (proj2 (proj2 (totalWeight_sum_in_order [Sample.bass; Sample.trout; Sample.perch]))
           Sample.whole_pounds _ P).
  - intros fish [<-|[<-|[<-|[]]]]; (split; [vm_compute; discriminate | reflexivity]).
  - reflexivity.
Defined.

(** C5, as stated, fails on weights in tenths of a pound: 0.1, 0.2 and
    0.3 add up to 0.6000000000000001 in this order and to 0.6 in the
    reverse order. *)
Lemma totalWeight_order_of_tenths :
  Permutation Sample.tenths Sample.tenths_reversed /\
  totalWeight Sample.tenths <> totalWeight Sample.tenths_reversed.
Proof.
  split; [apply Permutation_rev|].
  intro H. apply (f_equal Prim2SF) in H. vm_compute in H. discriminate H.
Qed.

Example totalWeight_of_tenths :
  totalWeight Sample.tenths = 0.6000000000000001%float /\
  totalWeight Sample.tenths_reversed = 0.6%float.
Proof. split; reflexivity. Qed.

Local Close Scope Z_scope.

(** ** The handlers, case by case *)

(** Unfolds the operations of the monad and the setters of the state. *)
Ltac unfold_effects :=
  unfold try_finally, try_catch, bind, or_throw, await, emit, ret, throw,
    not_awaited, setIsModalOpen, setLoading, setCatches, form_resetFields, modify.

Section HandlerFacts.

Variable api : Entity.Collaborator.

Lemma loadCatches_eq : forall w,
  loadCatches api w =
  (Normal tt,
   {| view := loaded api (view w);
      log := log w ++ Fish_list ::
               match Entity.list api with
               | Fulfilled _ => []
               | Rejected => [message_error "Failed to load fish catches"]
               end |}).
Proof.
  intros [v l].
  unfold loadCatches, loaded. unfold_effects. simpl.
  destruct (Entity.list api) as [[[] d]|]; simpl; try reflexivity.
  rewrite <- app_assoc. reflexivity.
Qed.

Lemma handleAddCatch_throw : forall values w,
  catchData values = None ->
  handleAddCatch api values w =
  (Normal tt, {| view := view w; log := log w ++ [message_error "Failed to add fish catch"] |}).
Proof.
  intros values [v l] H.
  unfold handleAddCatch. unfold_effects. rewrite H. reflexivity.
Qed.

Lemma handleAddCatch_rejected : forall values p w,
  catchData values = Some p ->
  Entity.create api p = Rejected ->
  handleAddCatch api values w =
  (Normal tt, {| view := view w;
                 log := log w ++ [Fish_create p; message_error "Failed to add fish catch"] |}).
Proof.
  intros values p [v l] H E.
  unfold handleAddCatch. unfold_effects.
  rewrite H. simpl. rewrite E. simpl. rewrite <- app_assoc. reflexivity.
Qed.

Lemma handleAddCatch_unsuccessful : forall values p r w,
  catchData values = Some p ->
  Entity.create api p = Fulfilled r ->
  success r = false ->
  handleAddCatch api values w =
  (Normal tt, {| view := view w; log := log w ++ [Fish_create p] |}).
Proof.
  intros values p r [v l] H E S.
  unfold handleAddCatch. unfold_effects.
  rewrite H. simpl. rewrite E. simpl. rewrite S. reflexivity.
Qed.

Lemma handleAddCatch_successful : forall values p r w,
  catchData values = Some p ->
  Entity.create api p = Fulfilled r ->
  success r = true ->
  handleAddCatch api values w =
  (Normal tt,
   {| view := loaded api {| catches := catches (view w); isModalOpen := false;
                        loading := loading (view w); form := Form.initial |};
      log := log w ++ Fish_create p :: message_success "Fish catch added successfully!"
               :: Fish_list ::
               match Entity.list api with
               | Fulfilled _ => []
               | Rejected => [message_error "Failed to load fish catches"]
               end |}).
Proof.
  intros values p r [v l] H E S.
  unfold handleAddCatch. unfold_effects.
  rewrite H. simpl. rewrite E. simpl. rewrite S. simpl.
  rewrite loadCatches_eq. simpl.
  repeat rewrite <- app_assoc. reflexivity.
Qed.

End HandlerFacts.

Lemma valid_has_date : forall values,
  Form.valid values = true -> exists p, catchData values = Some p.
Proof.
  intros values H. unfold Form.valid in H.
  repeat rewrite andb_true_iff in H. destruct H as [[[_ _] Hd] _].
  unfold catchData. destruct (Form.datecaught values) as [d|].
  - eexists. reflexivity.
  - discriminate Hd.
Qed.

(** C7: [loadCatches] always leaves [loading] cleared, and leaves the
    list as it was when the call of [Fish.list] is rejected or resolves
    with [success = false]. *)
Theorem loadCatches_failure_keeps_catches : forall api v,
  loading (view (run (loadCatches api) v)) = false /\
  (failed (Entity.list api) = true ->
   catches (view (run (loadCatches api) v)) = catches v).
Proof.
  intros api v. unfold run. rewrite loadCatches_eq. simpl. split.
  - reflexivity.
  - destruct (Entity.list api) as [[[] d]|]; simpl; intro H;
      [discriminate H | reflexivity | reflexivity].
Qed.

Lemma loadCatches_failure_keeps_catches_witness :
  failed (Entity.list Sample.rejecting) = true /\
  loading (view (run (loadCatches Sample.rejecting) Sample.filled)) = false /\
  catches (view (run (loadCatches Sample.rejecting) Sample.filled)) = [Sample.trout].
Proof.
  split; [reflexivity|]. split.
  - exact (proj1 (loadCatches_failure_keeps_catches Sample.rejecting Sample.filled)).
  - exact (proj2 (loadCatches_failure_keeps_catches Sample.rejecting Sample.filled) eq_refl).
Defined.

(** C2: submitting the form with its required fields filled in issues
    one creation; when that call succeeds, the calls of the entity are
    this creation followed by one fetch of the list, the modal is
    closed and the fields are reset. *)
Theorem onSubmit_creates_once : forall api v,
  Form.valid (form v) = true ->
  exists payload,
    catchData (form v) = Some payload /\
    filter is_create (log (run (onSubmit api) v)) = [Fish_create payload] /\
    (failed (Entity.create api payload) = false ->
     filter is_call (log (run (onSubmit api) v)) = [Fish_create payload; Fish_list] /\
     isModalOpen (view (run (onSubmit api) v)) = false /\
     form (view (run (onSubmit api) v)) = Form.initial).
Proof.
  intros api v Hv. destruct (valid_has_date _ Hv) as [p Hp].
  exists p. split; [exact Hp|].
  unfold run, onSubmit. simpl. rewrite Hv.
  destruct (Entity.create api p) as [r|] eqn:E.
  - destruct (success r) eqn:S.
    + rewrite (handleAddCatch_successful api _ p r _ Hp E S). simpl.
      destruct (Entity.list api); simpl; repeat split; reflexivity.
    + rewrite (handleAddCatch_unsuccessful api _ p r _ Hp E S). simpl.
      rewrite S. simpl. split; [reflexivity | intro H; discriminate H].
  - rewrite (handleAddCatch_rejected api _ p _ Hp E). simpl.
    split; [reflexivity | intro H; discriminate H].
Qed.

Lemma onSubmit_creates_once_witness :
  Form.valid (form Sample.filled) = true /\
  exists payload,
    catchData (form Sample.filled) = Some payload /\
    filter is_create (log (run (onSubmit Sample.accepting) Sample.filled))
    = [Fish_create payload] /\
    (failed (Entity.create Sample.accepting payload) = false ->
     filter is_call (log (run (onSubmit Sample.accepting) Sample.filled))
     = [Fish_create payload; Fish_list] /\
     isModalOpen (view (run (onSubmit Sample.accepting) Sample.filled)) = false /\
     form (view (run (onSubmit Sample.accepting) Sample.filled)) = Form.initial).
Proof.
  split; [reflexivity|].
  exact (onSubmit_creates_once Sample.accepting Sample.filled eq_refl).
Defined.

(** C6: when the creation fails (the call is rejected, or resolves with
    [success = false], or no payload could be built), the modal is as it
    was, open if it was open, and so is every field of the form. *)
Theorem handleAddCatch_failure_keeps_form : forall api v values,
  (forall p, catchData values = Some p -> failed (Entity.create api p) = true) ->
  isModalOpen (view (run (handleAddCatch api values) v)) = isModalOpen v /\
  form (view (run (handleAddCatch api values) v)) = form v.
Proof.
  intros api v values H. unfold run.
  destruct (catchData values) as [p|] eqn:Hp.
  - specialize (H p eq_refl).
    destruct (Entity.create api p) as [r|] eqn:E.
    + simpl in H. apply negb_true_iff in H.
      rewrite (handleAddCatch_unsuccessful api _ p r _ Hp E H). split; reflexivity.
    + rewrite (handleAddCatch_rejected api _ p _ Hp E). split; reflexivity.
  - rewrite (handleAddCatch_throw api _ _ Hp). split; reflexivity.
Qed.

Lemma handleAddCatch_failure_keeps_form_witness :
  (forall p, catchData Sample.entered = Some p ->
             failed (Entity.create Sample.rejecting p) = true) /\
  isModalOpen (view (run (handleAddCatch Sample.rejecting Sample.entered) Sample.filled))
  = true /\
  form (view (run (handleAddCatch Sample.rejecting Sample.entered) Sample.filled))
  = Sample.entered.
Proof.
  assert (H : forall p, catchData Sample.entered = Some p ->
                        failed (Entity.create Sample.rejecting p) = true)
    by (intros p _; reflexivity).
  split; [exact H|].
  exact (handleAddCatch_failure_keeps_form Sample.rejecting Sample.filled Sample.entered H).
Defined.

Lemma format_july_4th : forall d,
  Dayjs.year d = 2024%N -> Dayjs.month d = 6%N -> Dayjs.date d = 4%N ->
  Dayjs.format d "YYYY-MM-DD" = "2024-07-04".
Proof.
  intros [y m dd h mi s ms]; simpl; intros -> -> ->. reflexivity.
Qed.

(** C8: whatever the time of day, a date-picker value of 4 July 2024
    reaches [Fish.create] as the string "2024-07-04", next to the other
    fields of the form unchanged. *)
Theorem handleAddCatch_july_4th_payload : forall api v values d,
  Form.datecaught values = Some d ->
  Dayjs.year d = 2024%N -> Dayjs.month d = 6%N -> Dayjs.date d = 4%N ->
  exists payload,
    hd_error (log (run (handleAddCatch api values) v)) = Some (Fish_create payload) /\
    datecaught payload = Some "2024-07-04" /\
    species payload = Form.species values /\
    weight payload = Form.weight values /\
    length payload = Form.length values /\
    location payload = Form.location values /\
    bait payload = Form.bait values /\
    timeOfDay payload = Form.timeOfDay values /\
    weather payload = Form.weather values /\
    notes payload = Form.notes values.
Proof.
  intros api v values d Hd Hy Hm Hdd.
  assert (Hp : exists p, catchData values = Some p /\
                datecaught p = Some (Dayjs.format d "YYYY-MM-DD") /\
                species p = Form.species values /\
                weight p = Form.weight values /\
                length p = Form.length values /\
                location p = Form.location values /\
                bait p = Form.bait values /\
                timeOfDay p = Form.timeOfDay values /\
                weather p = Form.weather values /\
                notes p = Form.notes values).
  { unfold catchData. rewrite Hd. eexists. split; [reflexivity|].
    simpl. repeat split; reflexivity. }
  destruct Hp as [p [Hp [Hdate Hrest]]]. exists p.
  rewrite (format_july_4th d Hy Hm Hdd) in Hdate.
  split; [|split; [exact Hdate | exact Hrest]].
  unfold run.
  destruct (Entity.create api p) as [r|] eqn:E.
  - destruct (success r) eqn:S.
    + rewrite (handleAddCatch_successful api _ p r _ Hp E S). reflexivity.
    + rewrite (handleAddCatch_unsuccessful api _ p r _ Hp E S). reflexivity.
  - rewrite (handleAddCatch_rejected api _ p _ Hp E). reflexivity.
Qed.

Lemma handleAddCatch_july_4th_payload_witness :
  Form.datecaught Sample.entered = Some Sample.july4 /\
  exists payload,
    hd_error (log (run (handleAddCatch Sample.accepting Sample.entered) Sample.filled))
    = Some (Fish_create payload) /\
    datecaught payload = Some "2024-07-04" /\
    species payload = Some "Bass" /\
    weight payload = Some 3.5%float /\
    length payload = None /\
    location payload = Some "Lake Michigan" /\
    bait payload = Some "Worms" /\
    timeOfDay payload = None /\
    weather payload = None /\
    notes payload = None.
Proof.
  split; [reflexivity|].
  exact (handleAddCatch_july_4th_payload Sample.accepting Sample.filled Sample.entered
           Sample.july4 eq_refl eq_refl eq_refl eq_refl).
Defined.

(** C1 fails on the code: when both calls resolve with
    [success = false], neither [loadCatches] nor a submission of the form
    shows an error notification. *)
Theorem unsuccessful_result_is_silent : forall l created v,
  filter is_error (log (run (loadCatches (unsuccessful l created)) v)) = [] /\
  filter is_error (log (run (onSubmit (unsuccessful l created)) v)) = [].
Proof.
  intros l created v. split.
  - unfold run. rewrite loadCatches_eq. reflexivity.
  - unfold run, onSubmit. simpl.
    destruct (Form.valid (form v)) eqn:Hv; [|reflexivity].
    destruct (valid_has_date _ Hv) as [p Hp].
    rewrite (handleAddCatch_unsuccessful _ _ p {| success := false; data := created p |} _ Hp);
      reflexivity.
Qed.

(** A rejected call, by contrast, shows one error notification. *)
Theorem rejection_shows_error : forall api v values,
  (Entity.list api = Rejected ->
   filter is_error (log (run (loadCatches api) v)) = [message_error "Failed to load fish catches"]) /\
  ((forall p, Entity.create api p = Rejected) ->
   filter is_error (log (run (handleAddCatch api values) v)) = [message_error "Failed to add fish catch"]).
Proof.
  intros api v values. split.
  - intro H. unfold run. rewrite loadCatches_eq, H. reflexivity.
  - intro H. unfold run. destruct (catchData values) as [p|] eqn:Hp.
    + rewrite (handleAddCatch_rejected api _ p _ Hp (H p)). reflexivity.
    + rewrite (handleAddCatch_throw api _ _ Hp). reflexivity.
Qed.



Example onSubmit_accepted :
  run (onSubmit Sample.accepting) Sample.filled
  = {| view := {| catches := [Sample.trout; Sample.bass]; isModalOpen := false;
                  loading := false; form := Form.initial |};
       log := [Fish_create {| _id := None; species := Some "Bass";
                              weight := Some 3.5%float; length := None;
                              location := Some "Lake Michigan";
                              datecaught := Some "2024-07-04"; timeOfDay := None;
                              bait := Some "Worms"; weather := None; notes := None |};
               message_success "Fish catch added successfully!";
               Fish_list] |}.
Proof. reflexivity. Qed.

Example onCancel_closes_and_resets :
  run onCancel Sample.filled
  = {| view := {| catches := [Sample.trout]; isModalOpen := false;
                  loading := false; form := Form.initial |};
       log := [] |}.
Proof. reflexivity. Qed.

Example onMount_loads_the_list :
  run (onMount Sample.accepting) Sample.blank
  = {| view := {| catches := [Sample.trout; Sample.bass]; isModalOpen := true;
                  loading := false; form := Form.initial |};
       log := [Fish_list] |}.
Proof. reflexivity. Qed.

Example loadCatches_unsuccessful :
  run (loadCatches (unsuccessful [] (fun _ => None))) Sample.filled
  = {| view := Sample.filled; log := [Fish_list] |}.
Proof. reflexivity. Qed.

Example loadCatches_rejected :
  run (loadCatches Sample.rejecting) Sample.filled
  = {| view := Sample.filled;
       log := [Fish_list; message_error "Failed to load fish catches"] |}.
Proof. reflexivity. Qed.

(** * Further properties *)

(** ** What a handler touches *)

(** [loadCatches] calls the entity once, for the list, and nothing else;
    it leaves the modal and the form alone; and when the call succeeds
    the list of the view is the list received, whatever it was before. *)
Theorem loadCatches_only_lists : forall api v,
  filter is_call (log (run (loadCatches api) v)) = [Fish_list] /\
  isModalOpen (view (run (loadCatches api) v)) = isModalOpen v /\
  form (view (run (loadCatches api) v)) = form v /\
  (failed (Entity.list api) = false ->
   exists result,
     Entity.list api = Fulfilled result /\
     catches (view (run (loadCatches api) v)) = data result).
Proof.
  intros api v. unfold run. rewrite loadCatches_eq. simpl.
  destruct (Entity.list api) as [[[] d]|]; simpl; repeat split; try reflexivity;
    intro H; try discriminate H.
  eexists. split; reflexivity.
Qed.

Lemma loadCatches_only_lists_witness :
  failed (Entity.list Sample.accepting) = false /\
  filter is_call (log (run (loadCatches Sample.accepting) Sample.filled)) = [Fish_list] /\
  isModalOpen (view (run (loadCatches Sample.accepting) Sample.filled)) = true /\
  form (view (run (loadCatches Sample.accepting) Sample.filled)) = Sample.entered /\
  catches (view (run (loadCatches Sample.accepting) Sample.filled))
  = [Sample.trout; Sample.bass].
Proof.
  split; [reflexivity|].
  destruct (loadCatches_only_lists Sample.accepting Sample.filled) as [H1 [H2 [H3 _]]].
  split; [exact H1|]. split; [exact H2|]. split; [exact H3|]. reflexivity.
Defined.

(** [handleAddCatch] never puts the new record into the list itself: the
    list of the view is as it was, unless the creation and the fetch that
    follows it both succeed, and then it is the list received. One
    success notification is shown when the creation succeeds, none
    otherwise. *)
Theorem handleAddCatch_no_optimistic_update : forall api v values,
  (catches (view (run (handleAddCatch api values) v)) = catches v \/
   exists p result,
     catchData values = Some p /\
     failed (Entity.create api p) = false /\
     Entity.list api = Fulfilled result /\ success result = true /\
     catches (view (run (handleAddCatch api values) v)) = data result) /\
  count is_success (log (run (handleAddCatch api values) v))
  = match catchData values with
    | Some p => if failed (Entity.create api p) then 0 else 1
    | None => 0
    end.
Proof.
  intros api v values. unfold run.
  destruct (catchData values) as [p|] eqn:Hp.
  - destruct (Entity.create api p) as [r|] eqn:E.
    + destruct (success r) eqn:S.
      * rewrite (handleAddCatch_successful api _ p r _ Hp E S). simpl. rewrite S. simpl.
        split; [|destruct (Entity.list api); reflexivity].
        destruct (Entity.list api) as [[[] d]|] eqn:L; simpl;
          [right | left; reflexivity | left; reflexivity].
        exists p, {| success := true; data := d |}.
        rewrite E. simpl. rewrite S. repeat split; reflexivity.
      * rewrite (handleAddCatch_unsuccessful api _ p r _ Hp E S). simpl. rewrite S.
        split; [left|]; reflexivity.
    + rewrite (handleAddCatch_rejected api _ p _ Hp E). simpl.
      split; [left|]; reflexivity.
  - rewrite (handleAddCatch_throw api _ _ Hp). simpl. split; [left|]; reflexivity.
Qed.

(** ** Submitting again *)

Lemma onSubmit_eq : forall api w,
  Form.valid (form (view w)) = true ->
  onSubmit api w = handleAddCatch api (form (view w)) w.
Proof. intros api w H. unfold onSubmit. rewrite H. reflexivity. Qed.

Lemma created_app : forall l l', created (l ++ l')%list = (created l ++ created l')%list.
Proof.
  intro l. induction l as [|e l IH]; intro l'; simpl; [reflexivity|].
  destruct e; simpl; rewrite IH; reflexivity.
Qed.

(** After a submission that failed, submitting again without touching
    the form sends the same payload a second time; after one that
    succeeded, it sends nothing: the fields were reset and the required
    ones are empty. *)
Theorem resubmit_without_editing : forall api1 api2 v p,
  Form.valid (form v) = true ->
  catchData (form v) = Some p ->
  created (log (run (bind (onSubmit api1) (fun _ => onSubmit api2)) v))
  = if failed (Entity.create api1 p) then [p; p] else [p].
Proof.
  intros api1 api2 v p Hv Hp. unfold run, bind.
  rewrite onSubmit_eq by exact Hv. simpl.
  destruct (Entity.create api1 p) as [r|] eqn:E.
  - destruct (success r) eqn:S.
    + rewrite (handleAddCatch_successful api1 _ p r _ Hp E S). simpl. rewrite S. simpl.
      unfold onSubmit. simpl. destruct (Entity.list api1); reflexivity.
    + rewrite (handleAddCatch_unsuccessful api1 _ p r _ Hp E S). simpl. rewrite S. simpl.
      rewrite onSubmit_eq by exact Hv. simpl.
      destruct (Entity.create api2 p) as [r2|] eqn:E2.
      * destruct (success r2) eqn:S2.
        -- rewrite (handleAddCatch_successful api2 _ p r2 _ Hp E2 S2). simpl.
           destruct (Entity.list api2); reflexivity.
        -- rewrite (handleAddCatch_unsuccessful api2 _ p r2 _ Hp E2 S2). reflexivity.
      * rewrite (handleAddCatch_rejected api2 _ p _ Hp E2). reflexivity.
  - rewrite (handleAddCatch_rejected api1 _ p _ Hp E). simpl.
    rewrite onSubmit_eq by exact Hv. simpl.
    destruct (Entity.create api2 p) as [r2|] eqn:E2.
    + destruct (success r2) eqn:S2.
      * rewrite (handleAddCatch_successful api2 _ p r2 _ Hp E2 S2). simpl.
        destruct (Entity.list api2); reflexivity.
      * rewrite (handleAddCatch_unsuccessful api2 _ p r2 _ Hp E2 S2). reflexivity.
    + rewrite (handleAddCatch_rejected api2 _ p _ Hp E2). reflexivity.
Qed.

(** ** Sessions *)

Lemma count_app : forall (A : Type) (f : A -> bool) (l l' : list A),
  count f (l ++ l')%list = (count f l + count f l')%nat.
Proof.
  intros A f l l'. unfold count. rewrite filter_app, length_app. reflexivity.
Qed.

Lemma valid_complete : forall values p,
  Form.valid values = true -> catchData values = Some p -> complete p = true.
Proof.
  intros values p Hv Hp. unfold catchData in Hp.
  destruct (Form.datecaught values) as [d|] eqn:Hd; [|discriminate Hp].
  injection Hp as <-. unfold Form.valid in Hv. rewrite Hd in Hv.
  unfold complete. simpl.
  destruct (Form.required_text (Form.species values)); [|discriminate Hv].
  destruct (Form.required (Form.weight values)); [|discriminate Hv].
  destruct (Form.required_text (Form.location values)); [reflexivity|].
  discriminate Hv.
Qed.

(** Closes the facts of [step_ok] on a concrete list of events. *)
Ltac close_step :=
  unfold step_ok, count; simpl;
  repeat split; try lia; try (repeat constructor; assumption); auto.

Lemma handle_step : forall api a w,
  exists v' ev,
    handle api a w = (Normal tt, {| view := v'; log := (log w ++ ev)%list |}) /\
    step_ok a (view w) v' ev.
Proof.
  intros api a [v l]. destruct a as [| | |values|]; simpl.
  - (* the mount *)
    unfold onMount, not_awaited. rewrite loadCatches_eq. simpl.
    eexists. eexists. split; [reflexivity|].
    destruct (Entity.list api); close_step.
  - exists {| catches := catches v; isModalOpen := true; loading := loading v; form := form v |}, [].
    rewrite app_nil_r. split; [reflexivity | close_step].
  - exists {| catches := catches v; isModalOpen := false; loading := loading v;
              form := Form.initial |}, [].
    rewrite app_nil_r. split; [reflexivity | close_step].
  - exists {| catches := catches v; isModalOpen := isModalOpen v; loading := loading v;
              form := values |}, [].
    rewrite app_nil_r. split; [reflexivity | close_step].
  - (* a submission *)
    unfold onSubmit. simpl. destruct (Form.valid (form v)) eqn:Hv.
    + destruct (valid_has_date _ Hv) as [p Hp].
      pose proof (valid_complete _ _ Hv Hp) as Hc.
      destruct (Entity.create api p) as [r|] eqn:E.
      * destruct (success r) eqn:S.
        -- rewrite (handleAddCatch_successful api _ p r _ Hp E S). simpl.
           eexists. eexists. split; [reflexivity|].
           destruct (Entity.list api); close_step.
        -- rewrite (handleAddCatch_unsuccessful api _ p r _ Hp E S). simpl.
           eexists. eexists. split; [reflexivity | close_step].
      * rewrite (handleAddCatch_rejected api _ p _ Hp E). simpl.
        eexists. eexists. split; [reflexivity | close_step].
    + exists v, []. rewrite app_nil_r. split; [reflexivity | close_step].
Qed.

Lemma session_steps : forall steps w,
  exists v' ev,
    session steps w = (Normal tt, {| view := v'; log := (log w ++ ev)%list |}) /\
    session_ok steps (view w) v' ev.
Proof.
  intro steps. induction steps as [|[api a] steps IH]; intros [v l].
  - exists v, []. simpl. rewrite app_nil_r. split; [reflexivity|].
    unfold session_ok, count. simpl. repeat split; try constructor; auto.
  - destruct (handle_step api a {| view := v; log := l |}) as [v1 [ev1 [H1 Ok1]]].
    destruct (IH {| view := v1; log := (l ++ ev1)%list |}) as [v2 [ev2 [H2 Ok2]]].
    exists v2, (ev1 ++ ev2)%list. split.
    + cbn [session]. unfold bind. rewrite H1. simpl in H2 |- *. rewrite H2.
      rewrite app_assoc. reflexivity.
    + destruct Ok1 as [C1 [L1 [S1 [K1 [R1 G1]]]]].
      destruct Ok2 as [C2 [L2 [S2 [K2 [R2 G2]]]]].
      simpl in *. unfold session_ok.
      rewrite created_app, !count_app.
      assert (Hm : count is_mount ((api, a) :: steps)
                   = (match a with Mount => 1 | _ => 0 end + count is_mount steps)%nat)
        by (destruct a; reflexivity).
      assert (Hs : count is_submit ((api, a) :: steps)
                   = (match a with Submit => 1 | _ => 0 end + count is_submit steps)%nat)
        by (destruct a; reflexivity).
      rewrite Hm, Hs.
      split; [apply Forall_app; split; assumption|].
      repeat split; try lia. auto.
Qed.

(** In any session, every payload sent to [Fish.create] has its species,
    weight, location and date, and no identifier. *)
Theorem session_sends_complete_payloads : forall steps v p,
  In p (created (log (run (session steps) v))) -> complete p = true.
Proof.
  intros steps v p Hin. unfold run in Hin.
  destruct (session_steps steps {| view := v; log := [] |}) as [v' [ev [H Ok]]].
  rewrite H in Hin. simpl in Hin. destruct Ok as [C _].
  rewrite Forall_forall in C. apply C, Hin.
Qed.

(** In any session, the list is fetched once per mount and once per
    success notification, and never otherwise; there are no more success
    notifications than creations, no more creations than submissions,
    and no more error notifications than calls of the entity. *)
Theorem session_accounts_for_calls : forall steps v,
  count is_list (log (run (session steps) v))
  = (count is_mount steps + count is_success (log (run (session steps) v)))%nat /\
  (count is_success (log (run (session steps) v))
   <= count is_create (log (run (session steps) v)))%nat /\
  (count is_create (log (run (session steps) v)) <= count is_submit steps)%nat /\
  (count is_error (log (run (session steps) v))
   <= count is_call (log (run (session steps) v)))%nat.
Proof.
  intros steps v. unfold run.
  destruct (session_steps steps {| view := v; log := [] |}) as [v' [ev [H Ok]]].
  rewrite H. simpl. destruct Ok as [_ [L [S [K [R _]]]]]. repeat split; assumption.
Qed.

(** A session that starts with [loading] down ends with it down: no
    handler leaves the table spinning. *)
Theorem session_leaves_loading_down : forall steps v,
  loading v = false -> loading (view (run (session steps) v)) = false.
Proof.
  intros steps v Hl. unfold run.
  destruct (session_steps steps {| view := v; log := [] |}) as [v' [ev [H Ok]]].
  rewrite H. simpl. destruct Ok as [_ [_ [_ [_ [_ G]]]]]. apply G, Hl.
Qed.

(** ** The biggest fish: ties and order *)

Module OrderFacts.

Import IEEE.
Local Open Scope Z_scope.

Lemma below_le_trans : forall a b c, below a b -> ~ below a c -> below c b.
Proof. intros [[a1 a2] a3] [[b1 b2] b3] [[c1 c2] c3]. unfold below. lia. Qed.

Lemma below_trans : forall a b c, below a b -> below b c -> below a c.
Proof. intros [[a1 a2] a3] [[b1 b2] b3] [[c1 c2] c3]. unfold below. lia. Qed.

Lemma not_below_antisym : forall a b, ~ below a b -> ~ below b a -> a = b.
Proof.
  intros [[a1 a2] a3] [[b1 b2] b3]. unfold below. intros H1 H2.
  assert (a1 = b1) by lia. assert (a2 = b2) by lia. assert (a3 = b3) by lia.
  congruence.
Qed.

(** Apart from NaN and the negative zero, a double is known by its key. *)
Lemma key_inj : forall x y,
  x <> S754_nan -> y <> S754_nan ->
  x <> S754_zero true -> y <> S754_zero true ->
  key x = key y -> x = y.
Proof.
  intros [[]|[]| |[] mx ex] [[]|[]| |[] my ey] Hx Hy Zx Zy H;
    try congruence; simpl in H; try discriminate H.
  - injection H as He Hm. f_equal; lia.
  - injection H as He Hm. f_equal; lia.
Qed.

End OrderFacts.

(** [v || 0] is never the negative zero. *)
Lemma or_zero_not_negative_zero : forall v, Prim2SF (JS.or_zero v) <> S754_zero true.
Proof.
  intros [x|]; simpl; [|vm_compute; discriminate].
  unfold JS.truthy. destruct (PrimFloat.is_zero x) eqn:Z; simpl; [vm_compute; discriminate|].
  destruct (is_nan x); simpl; [vm_compute; discriminate|].
  intro E. unfold PrimFloat.is_zero in Z. rewrite FloatAxioms.eqb_spec, E in Z.
  vm_compute in Z. discriminate Z.
Qed.

Section Weights.

Variables x y z : JS.number.
Hypothesis Hx : is_nan x = false.
Hypothesis Hy : is_nan y = false.
Hypothesis Hz : is_nan z = false.

Lemma gt_trans : JS.gt x y = true -> JS.gt y z = true -> JS.gt x z = true.
Proof.
  intros H1 H2. apply NumberFacts.gt_rank; [assumption..|].
  apply (NumberFacts.gt_rank x y Hx Hy) in H1.
  apply (NumberFacts.gt_rank y z Hy Hz) in H2.
  exact (OrderFacts.below_trans _ _ _ H2 H1).
Qed.

Lemma gt_ge_gt : JS.gt x y = true -> JS.ge y z = true -> JS.gt x z = true.
Proof.
  intros H1 H2. apply NumberFacts.gt_rank; [assumption..|].
  apply (NumberFacts.gt_rank x y Hx Hy) in H1.
  apply (NumberFacts.ge_rank y z Hy Hz) in H2.
  exact (OrderFacts.below_le_trans _ _ _ H1 H2).
Qed.

Lemma gt_not_ge : JS.gt x y = true -> JS.ge y x = true -> False.
Proof.
  intros H1 H2.
  apply (NumberFacts.gt_rank x y Hx Hy) in H1.
  apply (NumberFacts.ge_rank y x Hy Hx) in H2.
  exact (H2 H1).
Qed.

Lemma ge_antisym :
  Prim2SF x <> S754_zero true -> Prim2SF y <> S754_zero true ->
  JS.ge x y = true -> JS.ge y x = true -> x = y.
Proof.
  intros Zx Zy H1 H2. apply Prim2SF_inj.
  apply (NumberFacts.ge_rank x y Hx Hy) in H1.
  apply (NumberFacts.ge_rank y x Hy Hx) in H2.
  apply OrderFacts.key_inj; try assumption;
    try (apply NumberFacts.is_nan_spec; assumption).
  exact (OrderFacts.not_below_antisym _ _ H1 H2).
Qed.

End Weights.

(** The fold from any starting record either keeps the start, which then
    weighs no less than every record, or stops at the first record that
    weighs more than the start and than every record before it, and no
    less than every record after it. *)
Lemma keep_bigger_first : forall l max,
  (fold_left keep_bigger l max = max /\
   forall fish, In fish l ->
     JS.ge (JS.or_zero (weight max)) (JS.or_zero (weight fish)) = true) \/
  (exists before after,
     l = (before ++ fold_left keep_bigger l max :: after)%list /\
     JS.gt (JS.or_zero (weight (fold_left keep_bigger l max)))
           (JS.or_zero (weight max)) = true /\
     (forall fish, In fish before ->
        JS.gt (JS.or_zero (weight (fold_left keep_bigger l max)))
              (JS.or_zero (weight fish)) = true) /\
     (forall fish, In fish after ->
        JS.ge (JS.or_zero (weight (fold_left keep_bigger l max)))
              (JS.or_zero (weight fish)) = true)).
Proof.
  intro l. induction l as [|fish l IH]; intro max; simpl.
  - left. split; [reflexivity | intros ? []].
  - destruct (JS.gt (JS.or_zero (weight fish)) (JS.or_zero (weight max))) eqn:G;
      [replace (keep_bigger max fish) with fish by (unfold keep_bigger; rewrite G; reflexivity)
      |replace (keep_bigger max fish) with max by (unfold keep_bigger; rewrite G; reflexivity)].
    + right. destruct (IH fish) as [[Heq Hall]|[before [after [Hl [Hgt [Hb Ha]]]]]].
      * exists [], l. rewrite Heq. repeat split; [exact G | intros ? [] | exact Hall].
      * exists (fish :: before), after. split; [simpl; f_equal; exact Hl|].
        split; [|split; [|exact Ha]].
        -- eapply gt_trans; [apply NumberFacts.or_zero_not_nan.. | exact Hgt | exact G].
        -- intros r [<-|Hr]; [exact Hgt | apply Hb, Hr].
    + assert (Hge : JS.ge (JS.or_zero (weight max)) (JS.or_zero (weight fish)) = true)
        by (apply NumberFacts.not_gt_ge; [apply NumberFacts.or_zero_not_nan.. | exact G]).
      destruct (IH max) as [[Heq Hall]|[before [after [Hl [Hgt [Hb Ha]]]]]].
      * left. split; [exact Heq|]. intros r [<-|Hr]; [exact Hge | apply Hall, Hr].
      * right. exists (fish :: before), after. split; [simpl; f_equal; exact Hl|].
        split; [exact Hgt|]. split; [|exact Ha].
        intros r [<-|Hr]; [|apply Hb, Hr].
        eapply gt_ge_gt; [apply NumberFacts.or_zero_not_nan.. | exact Hgt | exact Hge].
Qed.

(** When some record has a positive weight, [biggestFish] is one of the
    records and weighs no less than any. *)
Lemma biggestFish_among_the_records : forall l,
  existsb positive_weight l = true ->
  In (biggestFish l) l /\
  (forall fish, In fish l ->
     JS.ge (JS.or_zero (weight (biggestFish l))) (JS.or_zero (weight fish)) = true).
Proof.
  intros l E. apply existsb_exists in E. destruct E as [fish [Hin Hpos]].
  destruct (keep_bigger_fold l sentinel) as [Hwhere [_ Hall]].
  rewrite <- biggestFish_fold in Hwhere, Hall.
  split; [|exact Hall].
  destruct Hwhere as [Hs|Hi]; [|exact Hi].
  exfalso. apply (gt_not_ge (JS.or_zero (weight fish)) 0%float);
    [apply NumberFacts.or_zero_not_nan | reflexivity | exact Hpos|].
  specialize (Hall fish Hin). rewrite Hs in Hall. exact Hall.
Qed.

(** When some record has a positive weight, [biggestFish] is the first
    of the heaviest: it weighs more than every record before it and no
    less than every record after it. *)
Theorem biggestFish_first_of_the_heaviest : forall catches,
  existsb positive_weight catches = true ->
  exists before after,
    catches = (before ++ biggestFish catches :: after)%list /\
    (forall fish, In fish before ->
       JS.gt (JS.or_zero (weight (biggestFish catches)))
             (JS.or_zero (weight fish)) = true) /\
    (forall fish, In fish after ->
       JS.ge (JS.or_zero (weight (biggestFish catches)))
             (JS.or_zero (weight fish)) = true).
Proof.
  intros l E. apply existsb_exists in E. destruct E as [fish [Hin Hpos]].
  rewrite biggestFish_fold.
  destruct (keep_bigger_first l sentinel) as [[_ Hall]|[before [after [Hl [_ [Hb Ha]]]]]].
  - exfalso. apply (gt_not_ge (JS.or_zero (weight fish)) 0%float);
      [apply NumberFacts.or_zero_not_nan | reflexivity | exact Hpos | apply (Hall fish Hin)].
  - exists before, after. repeat split; assumption.
Qed.

(** The weight the Biggest Fish card is given: the greatest weight of the
    list when some weight is positive, and 0 otherwise. *)
Lemma biggest_weight_spec : forall l,
  (existsb positive_weight l = true /\
   (exists fish, In fish l /\
      JS.or_zero (weight fish) = JS.or_zero (weight (biggestFish l))) /\
   (forall fish, In fish l ->
      JS.ge (JS.or_zero (weight (biggestFish l))) (JS.or_zero (weight fish)) = true)) \/
  (existsb positive_weight l = false /\
   JS.or_zero (weight (biggestFish l)) = 0%float).
Proof.
  intro l. destruct (existsb positive_weight l) eqn:E.
  - left. split; [reflexivity|].
    destruct (biggestFish_among_the_records l E) as [Hin Hall].
    split; [|exact Hall]. exists (biggestFish l). split; [exact Hin | reflexivity].
  - right. split; [reflexivity|].
    rewrite biggestFish_fold, (no_positive_weight _ E). reflexivity.
Qed.

Lemma existsb_permutation : forall (A : Type) (f : A -> bool) (l l' : list A),
  Permutation l l' -> existsb f l = existsb f l'.
Proof.
  intros A f l l' P. induction P; simpl.
  - reflexivity.
  - rewrite IHP. reflexivity.
  - destruct (f x), (f y); reflexivity.
  - congruence.
Qed.

(** The Biggest Fish card does not depend on the order of the records:
    unlike a sum, the greatest weight is found without rounding. *)
Theorem biggestFishStatistic_permutation : forall catches catches',
  Permutation catches catches' ->
  biggestFishStatistic catches' = biggestFishStatistic catches.
Proof.
  intros l l' P. unfold biggestFishStatistic. f_equal.
  pose proof (existsb_permutation _ positive_weight l l' P) as E.
  destruct (biggest_weight_spec l) as [[E1 [[f1 [In1 W1]] All1]]|[E1 Z1]];
    destruct (biggest_weight_spec l') as [[E2 [[f2 [In2 W2]] All2]]|[E2 Z2]];
    try congruence.
  apply ge_antisym; try apply NumberFacts.or_zero_not_nan;
    try apply or_zero_not_negative_zero.
  - rewrite <- W1. apply All2. apply Permutation_in with l; assumption.
  - rewrite <- W2. apply All1. apply Permutation_in with l'; [symmetry|]; assumption.
Qed.

Lemma biggestFishStatistic_permutation_witness :
  Permutation [Sample.bass; Sample.trout; Sample.perch]
              [Sample.perch; Sample.bass; Sample.trout] /\
  biggestFishStatistic [Sample.perch; Sample.bass; Sample.trout]
  = JS.Template 5%float " lbs".
Proof.
  assert (P : Permutation [Sample.bass; Sample.trout; Sample.perch]
                          [Sample.perch; Sample.bass; Sample.trout]).
  { apply Permutation_sym. apply (Permutation_cons_app [Sample.bass; Sample.trout] []).
    apply Permutation_refl. }
  split; [exact P|].
  exact (biggestFishStatistic_permutation _ _ P).
Defined.

(** ** The sign of a difference *)

(** A comparator [(a, b) => x - y] sorts by [x] when the sign of the
    difference is the comparison of [x] and [y]. For doubles this holds
    whenever the difference is a number: a difference of two distinct
    doubles is never rounded to zero. *)

Module SignFacts.

Local Open Scope Z_scope.

Lemma shr_1_div2 : forall mrs,
  0 <= shr_m mrs -> shr_m (shr_1 mrs) = Z.div2 (shr_m mrs).
Proof. intros [m r s] H. destruct m as [|[p|p|]|p]; try reflexivity. simpl in H. lia. Qed.

Lemma shr_iter_div : forall n mrs,
  0 <= shr_m mrs ->
  shr_m (Nat.iter n shr_1 mrs) = shr_m mrs / 2 ^ Z.of_nat n.
Proof.
  induction n as [|n IH]; intros mrs H.
  - simpl. rewrite Z.div_1_r. reflexivity.
  - rewrite Nat.iter_succ.
    assert (P : 0 < 2 ^ Z.of_nat n) by (apply Z.pow_pos_nonneg; lia).
    rewrite shr_1_div2 by (rewrite IH by exact H; apply Z.div_pos; lia).
    rewrite IH, Z.div2_div by exact H.
    rewrite Z.div_div by (try apply Z.pow_pos_nonneg; lia).
    rewrite Nat2Z.inj_succ, Z.pow_succ_r by lia. f_equal. ring.
Qed.

Lemma shr_record_of_loc_m : forall m l, shr_m (shr_record_of_loc m l) = m.
Proof. intros m [|[]]; reflexivity. Qed.

(** Above the smallest exponent, rounding a positive mantissa leaves a
    positive mantissa. *)
Lemma shr_fexp_pos : forall p e l,
  -1074 <= e ->
  0 < shr_m (fst (shr_fexp 53 1024 (Zpos p) e l)) /\
  -1074 <= snd (shr_fexp 53 1024 (Zpos p) e l).
Proof.
  intros p e l He. unfold shr_fexp, shr. cbn [Zdigits2].
  destruct (ExactFacts.digits2_bounds p) as [Pl _].
  set (d := Zpos (digits2_pos p)) in *.
  destruct (fexp 53 1024 (d + e) - e) as [|delta|delta] eqn:N; cbn [fst snd].
  - rewrite shr_record_of_loc_m. lia.
  - assert (Hd : d = 53 + Zpos delta) by (unfold fexp, emin in N; lia).
    rewrite ExactFacts.iter_pos_nat, shr_iter_div, shr_record_of_loc_m, positive_nat_Z
      by (rewrite shr_record_of_loc_m; lia).
    assert (P2 : 0 < 2 ^ Zpos delta) by (apply Z.pow_pos_nonneg; lia).
    split; [|lia].
    apply Z.lt_le_trans with (2 ^ 52); [reflexivity|].
    apply Z.div_le_lower_bound; [exact P2|].
    rewrite Z.mul_comm, <- Z.pow_add_r by lia.
    replace (52 + Zpos delta) with (d - 1) by lia. exact Pl.
  - rewrite shr_record_of_loc_m. lia.
Qed.

Lemma round_nearest_even_pos : forall m l, 0 < m -> 0 < round_nearest_even m l.
Proof.
  intros m l H. unfold round_nearest_even.
  destruct l as [|[]]; try destruct (Z.even m); lia.
Qed.

(** The result of rounding has the sign it was given, and is not zero. *)
Lemma binary_round_aux_sign : forall s p e l,
  -1074 <= e ->
  SFcompare (binary_round_aux 53 1024 s (Zpos p) e l) (S754_zero false)
  = Some (if s then Lt else Gt).
Proof.
  intros s p e l He. unfold binary_round_aux.
  destruct (shr_fexp_pos p e l He) as [H1 E1].
  destruct (shr_fexp 53 1024 (Zpos p) e l) as [mrs' e']. cbn [fst snd] in H1, E1.
  pose proof (round_nearest_even_pos _ (loc_of_shr_record mrs') H1) as H2.
  destruct (round_nearest_even (shr_m mrs') (loc_of_shr_record mrs')) as [|q|q]; try lia.
  destruct (shr_fexp_pos q e' loc_Exact E1) as [H3 _].
  destruct (shr_fexp 53 1024 (Zpos q) e' loc_Exact) as [mrs'' e'']. cbn [fst] in H3.
  destruct (shr_m mrs'') as [|m|m]; try lia.
  destruct (e'' <=? 1024 - 53); destruct s; reflexivity.
Qed.

Lemma binary_round_sign : forall s p e,
  -1074 <= e ->
  SFcompare (binary_round 53 1024 s p e) (S754_zero false)
  = Some (if s then Lt else Gt).
Proof.
  intros s p e He. unfold binary_round.
  assert (Hz : -1074 <= snd (shl_align p e (fexp 53 1024 (Zpos (digits2_pos p) + e)))).
  { unfold shl_align.
    destruct (fexp 53 1024 (Zpos (digits2_pos p) + e) - e) eqn:N; cbn [snd]; try exact He.
    unfold fexp, emin. lia. }
  destruct (shl_align p e (fexp 53 1024 (Zpos (digits2_pos p) + e))) as [mz ez].
  apply binary_round_aux_sign. exact Hz.
Qed.

Lemma binary_normalize_sign : forall D e,
  -1074 <= e ->
  SFcompare (binary_normalize 53 1024 D e false) (S754_zero false) = Some (D ?= 0).
Proof.
  intros [|p|p] e He; unfold binary_normalize;
    [reflexivity | apply (binary_round_sign false) | apply (binary_round_sign true)]; exact He.
Qed.

(** A valid mantissa is below [2^53], and not below [2^52] unless the
    exponent is the smallest. *)
Lemma bounded_bounds : forall m e,
  bounded 53 1024 m e = true ->
  -1074 <= e /\ Zpos m < 2 ^ 53 /\ (-1074 < e -> 2 ^ 52 <= Zpos m).
Proof.
  intros m e H. unfold bounded, canonical_mantissa in H.
  apply andb_true_iff in H. destruct H as [H _]. apply Z.eqb_eq in H.
  unfold fexp, emin in H.
  destruct (ExactFacts.digits2_bounds m) as [Pl Pu].
  set (d := Zpos (digits2_pos m)) in *.
  assert (Hd : d <= 53) by lia.
  split; [lia|]. split.
  - apply Z.lt_le_trans with (2 ^ d); [exact Pu | apply Z.pow_le_mono_r; lia].
  - intro He. replace 52 with (d - 1) by lia. exact Pl.
Qed.

(** Mantissas brought to the smaller of the two exponents compare as the
    pairs of exponent and mantissa do. *)
Lemma aligned_compare : forall mx ex my ey,
  bounded 53 1024 mx ex = true -> bounded 53 1024 my ey = true ->
  (Zpos mx * 2 ^ (ex - Z.min ex ey) ?= Zpos my * 2 ^ (ey - Z.min ex ey))
  = match ex ?= ey with
    | Lt => Lt
    | Gt => Gt
    | Eq => Pos.compare_cont Eq mx my
    end.
Proof.
  intros mx ex my ey Bx By.
  destruct (bounded_bounds _ _ Bx) as [Ex [Ux Lx]].
  destruct (bounded_bounds _ _ By) as [Ey [Uy Ly]].
  destruct (Z.compare_spec ex ey) as [E|L|G].
  - subst ey. rewrite Z.min_id, Z.sub_diag. simpl. rewrite 2 Pos.mul_1_r. reflexivity.
  - rewrite Z.min_l, Z.sub_diag by lia. apply Z.compare_lt_iff.
    assert (2 ^ 1 <= 2 ^ (ey - ex)) by (apply Z.pow_le_mono_r; lia).
    specialize (Ly ltac:(lia)). change (2 ^ 1) with 2 in *.
    change (2 ^ 0) with 1. change (2 ^ 53) with (2 ^ 52 * 2) in *. nia.
  - rewrite Z.min_r, Z.sub_diag by lia. apply Z.compare_gt_iff.
    assert (2 ^ 1 <= 2 ^ (ex - ey)) by (apply Z.pow_le_mono_r; lia).
    specialize (Lx ltac:(lia)). change (2 ^ 1) with 2 in *.
    change (2 ^ 0) with 1. change (2 ^ 53) with (2 ^ 52 * 2) in *. nia.
Qed.

(** The difference of two valid doubles, when it is a number, compares
    with zero as the two compare with each other. *)
Lemma SFsub_compare : forall x y,
  SpecFloat.valid_binary 53 1024 x = true -> SpecFloat.valid_binary 53 1024 y = true ->
  x <> S754_nan -> y <> S754_nan -> SFsub 53 1024 x y <> S754_nan ->
  SFcompare (SFsub 53 1024 x y) (S754_zero false) = SFcompare x y.
Proof.
  intros [sx|sx| |sx mx ex] [sy|sy| |sy my ey] Vx Vy Nx Ny Nd; try congruence.
  - destruct sx, sy; reflexivity.
  - destruct sy; reflexivity.
  - destruct sy; reflexivity.
  - destruct sx; reflexivity.
  - destruct sx, sy; simpl in Nd |- *; try reflexivity; congruence.
  - destruct sx; reflexivity.
  - destruct sx; reflexivity.
  - destruct sy; reflexivity.
  - simpl in Vx, Vy. cbn [SFsub].
    destruct (bounded_bounds _ _ Vx) as [Ex _], (bounded_bounds _ _ Vy) as [Ey _].
    rewrite binary_normalize_sign by lia.
    rewrite 2 ExactFacts.shl_align_fst by lia.
    rewrite <- Z.compare_sub.
    pose proof (aligned_compare mx ex my ey Vx Vy) as A.
    set (X := Zpos mx * 2 ^ (ex - Z.min ex ey)) in *.
    set (Y := Zpos my * 2 ^ (ey - Z.min ex ey)) in *.
    assert (PX : 0 < X) by (apply Z.mul_pos_pos; [lia | apply Z.pow_pos_nonneg; lia]).
    assert (PY : 0 < Y) by (apply Z.mul_pos_pos; [lia | apply Z.pow_pos_nonneg; lia]).
    unfold SFcompare. destruct sx, sy; cbn [cond_Zopp].
    + rewrite Z.compare_opp, (Z.compare_antisym X Y), A.
      destruct (ex ?= ey); reflexivity.
    + f_equal. apply Z.compare_lt_iff. lia.
    + f_equal. apply Z.compare_gt_iff. lia.
    + rewrite A. reflexivity.
Qed.

End SignFacts.

(** The difference of two numbers, when it is a number, compares with 0
    as the two compare with each other. *)
Lemma difference_sign : forall x y : JS.number,
  is_nan x = false -> is_nan y = false -> is_nan (x - y)%float = false ->
  ((x - y) ?= 0)%float = (x ?= y)%float.
Proof.
  intros x y Hx Hy Hd. rewrite 2 compare_spec. f_equal.
  change (Prim2SF 0%float) with (S754_zero false).
  apply NumberFacts.is_nan_spec in Hx, Hy, Hd. rewrite sub_spec in Hd |- *.
  apply SignFacts.SFsub_compare; try assumption; apply Prim2SF_valid.
Qed.

(** ** The comparators of the Length and Weight columns *)

(** The Length comparator sorts by length: when one of the two lengths is
    absent or finite, the comparator is a number, and it is negative,
    zero or positive as the first length, an absent one counting as 0,
    is less than, equal to or greater than the second. *)
Theorem lengthSorter_sorts_by_length : forall a b,
  finite_length a = true \/ finite_length b = true ->
  is_nan (lengthSorter a b) = false /\
  (lengthSorter a b ?= 0)%float
  = (JS.or_zero (length a) ?= JS.or_zero (length b))%float.
Proof.
  intros a b H.
  assert (N : is_nan (lengthSorter a b) = false).
  { apply NumberFacts.is_nan_spec. unfold lengthSorter. rewrite sub_spec.
    apply RoundFacts.SFsub_not_nan.
    - apply NumberFacts.is_nan_spec, NumberFacts.or_zero_not_nan.
    - apply NumberFacts.is_nan_spec, NumberFacts.or_zero_not_nan.
    - destruct H as [H|H]; [left | right]; intro s; apply or_zero_finite, H. }
  split; [exact N|].
  apply difference_sign; [apply NumberFacts.or_zero_not_nan.. | exact N].
Qed.

Lemma lengthSorter_sorts_by_length_witness :
  (finite_length Sample.perch = true \/ finite_length Sample.bass = true) /\
  is_nan (lengthSorter Sample.perch Sample.bass) = false /\
  (lengthSorter Sample.perch Sample.bass ?= 0)%float = FLt.
Proof.
  assert (H : finite_length Sample.perch = true \/ finite_length Sample.bass = true)
    by (left; reflexivity).
  split; [exact H|].
  exact (lengthSorter_sorts_by_length Sample.perch Sample.bass H).
Defined.

Lemma nan_difference : forall x y : JS.number,
  is_nan x = true \/ is_nan y = true -> is_nan (x - y)%float = true.
Proof.
  intros x y H. destruct (is_nan (x - y)%float) eqn:D; [reflexivity|].
  exfalso. apply NumberFacts.is_nan_spec in D. apply D. rewrite sub_spec.
  destruct H as [H|H].
  - destruct (Prim2SF x) eqn:E; try reflexivity;
      assert (is_nan x = false) by (apply NumberFacts.is_nan_spec; congruence); congruence.
  - destruct (Prim2SF y) eqn:E;
      [| | destruct (Prim2SF x); reflexivity |];
      assert (is_nan y = false) by (apply NumberFacts.is_nan_spec; congruence); congruence.
Qed.

(** The Weight comparator takes the weights as they are: when a weight is
    absent the comparator is NaN, and orders nothing. When both records
    have a weight, a number, and one of the two is finite, the comparator
    is a number, negative, zero or positive as the first weight is less
    than, equal to or greater than the second. *)
Theorem weightSorter_sorts_present_weights : forall a b,
  match weight a, weight b with
  | Some x, Some y =>
      is_nan x = false -> is_nan y = false ->
      is_infinity x = false \/ is_infinity y = false ->
      is_nan (weightSorter a b) = false /\
      (weightSorter a b ?= 0)%float = (x ?= y)%float
  | _, _ => is_nan (weightSorter a b) = true
  end.
Proof.
  intros a b. unfold weightSorter.
  destruct (weight a) as [x|], (weight b) as [y|]; simpl;
    try reflexivity;
    try (apply nan_difference; first [left; reflexivity | right; reflexivity]).
  intros Hx Hy Hf.
  assert (N : is_nan (x - y)%float = false).
  { apply NumberFacts.is_nan_spec. rewrite sub_spec.
    apply RoundFacts.SFsub_not_nan; try (apply NumberFacts.is_nan_spec; assumption).
    destruct Hf as [H|H]; [left | right]; intro s; apply is_infinity_spec, H. }
  split; [exact N | apply difference_sign; assumption].
Qed.

Lemma weightSorter_sorts_present_weights_witness :
  (is_nan (weightSorter Sample.bass Sample.trout) = false /\
   (weightSorter Sample.bass Sample.trout ?= 0)%float = FGt) /\
  is_nan (weightSorter Sample.bass Sample.perch) = true.
Proof.
  split.
  - exact (weightSorter_sorts_present_weights Sample.bass Sample.trout
             eq_refl eq_refl (or_introl eq_refl)).
  - exact (weightSorter_sorts_present_weights Sample.bass Sample.perch).
Defined.

Example weightRender_examples :
  weightRender (weight Sample.bass) = JS.Template 5%float " lbs" /\
  weightRender (weight Sample.perch) = JS.Literal "undefined lbs".
Proof. split; reflexivity. Qed.

(** ** The total weight is not negative *)

Module SumFacts.

Local Open Scope Z_scope.

Lemma binary_round_aux_not_negative : forall m e l,
  0 <= m -> not_negative (binary_round_aux 53 1024 false m e l) = true.
Proof.
  intros m e l H.
  pose proof (RoundFacts.binary_round_aux_not_nan 53 1024 false m e l H) as N.
  unfold binary_round_aux in *.
  destruct (shr_fexp 53 1024 m e l) as [mrs' e'].
  destruct (shr_fexp 53 1024 (round_nearest_even (shr_m mrs') (loc_of_shr_record mrs')) e' loc_Exact)
    as [mrs'' e''].
  destruct (shr_m mrs'') as [|p|p]; [reflexivity | | congruence].
  destruct (e'' <=? 1024 - 53); reflexivity.
Qed.

(** Numbers that are not negative add up to one that is not negative. *)
Lemma SFadd_not_negative : forall x y,
  not_negative x = true -> not_negative y = true ->
  not_negative (SFadd 53 1024 x y) = true.
Proof.
  intros [[]|[]| |[] mx ex] [[]|[]| |[] my ey] Hx Hy;
    try discriminate Hx; try discriminate Hy; try reflexivity.
  cbn [SFadd cond_Zopp]. unfold binary_normalize.
  destruct (Zpos (fst (shl_align mx ex (Z.min ex ey)))
            + Zpos (fst (shl_align my ey (Z.min ex ey)))) as [|p|p] eqn:E;
    [reflexivity | | lia].
  unfold binary_round.
  destruct (shl_align p (Z.min ex ey) _) as [mz ez].
  apply binary_round_aux_not_negative. lia.
Qed.

End SumFacts.

Lemma ge_zero_not_negative : forall x : JS.number,
  Prim2SF x <> S754_zero true ->
  JS.ge x 0%float = true -> not_negative (Prim2SF x) = true.
Proof.
  intros x Z H. unfold JS.ge in H. rewrite leb_spec in H.
  change (Prim2SF 0%float) with (S754_zero false) in H.
  destruct (Prim2SF x) as [[]|[]| |[] m e]; try reflexivity;
    try discriminate H. congruence.
Qed.

Lemma not_negative_ge_zero : forall x : JS.number,
  not_negative (Prim2SF x) = true -> JS.ge x 0%float = true.
Proof.
  intros x H. unfold JS.ge. rewrite leb_spec.
  change (Prim2SF 0%float) with (S754_zero false).
  destruct (Prim2SF x) as [[]|[]| |[] m e]; try discriminate H; reflexivity.
Qed.

Lemma totalWeight_from_not_negative : forall l acc,
  not_negative (Prim2SF acc) = true ->
  (forall fish, In fish l -> JS.ge (JS.or_zero (weight fish)) 0%float = true) ->
  not_negative
    (Prim2SF (fold_left (fun sum fish => (sum + JS.or_zero (weight fish))%float) l acc))
  = true.
Proof.
  intro l. induction l as [|fish l IH]; intros acc Hacc H; simpl; [exact Hacc|].
  apply IH; [|intros f Hf; apply H; right; exact Hf].
  rewrite add_spec. apply SumFacts.SFadd_not_negative; [exact Hacc|].
  apply ge_zero_not_negative; [apply or_zero_not_negative_zero|].
  apply H. left. reflexivity.
Qed.

(** When no weight is negative, [totalWeight] is a number, NaN
    excluded, and is not negative, however large the weights: a sum that
    overflows is the positive infinity. *)
Theorem totalWeight_not_negative : forall catches,
  (forall fish, In fish catches -> JS.ge (JS.or_zero (weight fish)) 0%float = true) ->
  is_nan (totalWeight catches) = false /\
  JS.ge (totalWeight catches) 0%float = true.
Proof.
  intros l H.
  pose proof (totalWeight_from_not_negative l 0%float eq_refl H) as N.
  fold (JS.reduce (fun sum fish => (sum + JS.or_zero (weight fish))%float) l 0%float) in N.
  fold (totalWeight l) in N. split.
  - apply NumberFacts.is_nan_spec. intro E. rewrite E in N. discriminate N.
  - apply not_negative_ge_zero, N.
Qed.

Lemma totalWeight_not_negative_witness :
  (forall fish, In fish [Sample.bass; Sample.trout; Sample.perch] ->
     JS.ge (JS.or_zero (weight fish)) 0%float = true) /\
  is_nan (totalWeight [Sample.bass; Sample.trout; Sample.perch]) = false /\
  JS.ge (totalWeight [Sample.bass; Sample.trout; Sample.perch]) 0%float = true.
Proof.
  assert (H : forall fish, In fish [Sample.bass; Sample.trout; Sample.perch] ->
                JS.ge (JS.or_zero (weight fish)) 0%float = true)
    by (intros fish [<-|[<-|[<-|[]]]]; reflexivity).
  split; [exact H|].
  exact (totalWeight_not_negative _ H).
Defined.

(** ** The date of the payload *)

Module ISOFacts.

Lemma below_in_range : forall n k : N,
  (n < k)%N -> In n (map N.of_nat (seq 0 (N.to_nat k))).
Proof.
  intros n k H. rewrite <- (Nnat.N2Nat.id n). apply in_map. apply in_seq. lia.
Qed.

Lemma padded_4 : forall n, (n < 10000)%N -> ISO.padded_ok 4 n = true.
Proof.
  assert (H : forallb (ISO.padded_ok 4) (map N.of_nat (seq 0 (N.to_nat 10000))) = true)
    by (vm_compute; reflexivity).
  intros n Hn. rewrite forallb_forall in H. apply H.
  apply (below_in_range n 10000%N). exact Hn.
Qed.

Lemma padded_2 : forall n, (n < 100)%N -> ISO.padded_ok 2 n = true.
Proof.
  assert (H : forallb (ISO.padded_ok 2) (map N.of_nat (seq 0 (N.to_nat 100))) = true)
    by (vm_compute; reflexivity).
  intros n Hn. rewrite forallb_forall in H. apply H.
  apply (below_in_range n 100%N). exact Hn.
Qed.

Lemma padded_spec : forall k n,
  ISO.padded_ok k n = true ->
  String.length (Dayjs.padStart k (Dayjs.digits n)) = k /\
  ISO.number_of (Dayjs.padStart k (Dayjs.digits n)) = Some n.
Proof.
  intros k n H. unfold ISO.padded_ok in H. apply andb_true_iff in H.
  destruct H as [L R]. apply Nat.eqb_eq in L. split; [exact L|].
  destruct (ISO.number_of _) as [m|]; [|discriminate R].
  apply N.eqb_eq in R. congruence.
Qed.

Lemma length_4 : forall s, String.length s = 4%nat ->
  exists a b c d, s = ISO.chars [a; b; c; d].
Proof.
  intros [|a [|b [|c [|d [|e s]]]]] H; try discriminate H.
  exists a, b, c, d. reflexivity.
Qed.

Lemma length_2 : forall s, String.length s = 2%nat ->
  exists a b, s = ISO.chars [a; b].
Proof.
  intros [|a [|b [|c s]]] H; try discriminate H.
  exists a, b. reflexivity.
Qed.

(** The template [YYYY-MM-DD] writes a date that reads back as the
    year, the month and the day of the value. *)
Lemma format_read : forall d,
  (Dayjs.year d < 10000)%N -> (Dayjs.month d < 12)%N -> (Dayjs.date d < 100)%N ->
  String.length (Dayjs.format d "YYYY-MM-DD") = 10%nat /\
  ISO.read (Dayjs.format d "YYYY-MM-DD")
  = Some (Dayjs.year d, (Dayjs.month d + 1)%N, Dayjs.date d).
Proof.
  intros d Hy Hm Hd.
  destruct (padded_spec 4 _ (padded_4 _ Hy)) as [Ly Ry].
  destruct (padded_spec 2 _ (padded_2 (Dayjs.month d + 1) ltac:(lia))) as [Lm Rm].
  destruct (padded_spec 2 _ (padded_2 _ Hd)) as [Ld Rd].
  change (Dayjs.format d "YYYY-MM-DD")
    with (Dayjs.padStart 4 (Dayjs.digits (Dayjs.year d))
          ++ String "-" (Dayjs.padStart 2 (Dayjs.digits (Dayjs.month d + 1))
          ++ String "-" (Dayjs.padStart 2 (Dayjs.digits (Dayjs.date d)) ++ EmptyString))).
  destruct (length_4 _ Ly) as [y1 [y2 [y3 [y4 Ey]]]].
  destruct (length_2 _ Lm) as [m1 [m2 Em]].
  destruct (length_2 _ Ld) as [d1 [d2 Ed]].
  rewrite Ey in Ry |- *. rewrite Em in Rm |- *. rewrite Ed in Rd |- *.
  split; [reflexivity|].
  cbn [ISO.chars fold_right append ISO.read]. cbn [ISO.chars fold_right] in Ry, Rm, Rd.
  change (Ascii.eqb "-" "-") with true. cbn [andb].
  rewrite Ry, Rm, Rd. reflexivity.
Qed.

End ISOFacts.

(** Whatever the date picked, in the years up to 9999, the payload sent
    to [Fish.create] carries it as ten characters that read back, as an
    ISO date, as the year, the month and the day picked; the time of day
    is dropped. *)
Theorem catchData_date_reads_back : forall values d,
  Form.datecaught values = Some d ->
  (Dayjs.year d < 10000)%N -> (Dayjs.month d < 12)%N -> (Dayjs.date d < 100)%N ->
  exists p s,
    catchData values = Some p /\ datecaught p = Some s /\
    String.length s = 10%nat /\
    ISO.read s = Some (Dayjs.year d, (Dayjs.month d + 1)%N, Dayjs.date d).
Proof.
  intros values d Hd Hy Hm Hdd. unfold catchData. rewrite Hd.
  eexists. eexists. split; [reflexivity|]. split; [reflexivity|].
  apply ISOFacts.format_read; assumption.
Qed.

Lemma catchData_date_reads_back_witness :
  Form.datecaught Sample.entered = Some Sample.july4 /\
  exists p s,
    catchData Sample.entered = Some p /\ datecaught p = Some s /\
    String.length s = 10%nat /\ ISO.read s = Some (2024, 7, 4)%N.
Proof.
  split; [reflexivity|].
  exact (catchData_date_reads_back Sample.entered Sample.july4 eq_refl
           eq_refl eq_refl eq_refl).
Defined.

(** ** Sessions, continued *)

(** No handler lets an exception escape: whatever the entity's calls do,
    every session runs to its end. *)
Theorem session_never_throws : forall steps v,
  fst (session steps {| view := v; log := [] |}) = Normal tt.
Proof.
  intros steps v.
  destruct (session_steps steps {| view := v; log := [] |}) as [v' [ev [H _]]].
  rewrite H. reflexivity.
Qed.


Lemma session_sends_complete_payloads_witness :
  In Evening.sent (created (log (run (session Evening.steps) Evening.fresh))) /\
  complete Evening.sent = true.
Proof.
  assert (H : In Evening.sent (created (log (run (session Evening.steps) Evening.fresh))))
    by (left; reflexivity).
  split; [exact H|].
  exact (session_sends_complete_payloads Evening.steps Evening.fresh Evening.sent H).
Defined.

Lemma session_leaves_loading_down_witness :
  loading Evening.fresh = false /\
  loading (view (run (session Evening.steps) Evening.fresh)) = false.
Proof.
  split; [reflexivity|].
  exact (session_leaves_loading_down Evening.steps Evening.fresh eq_refl).
Defined.

Lemma resubmit_without_editing_witness :
  Form.valid (form Sample.filled) = true /\
  catchData (form Sample.filled) = Some Evening.sent /\
  created (log (run (bind (onSubmit Sample.rejecting)
                          (fun _ => onSubmit Sample.accepting)) Sample.filled))
  = [Evening.sent; Evening.sent] /\
  created (log (run (bind (onSubmit Sample.accepting)
                          (fun _ => onSubmit Sample.accepting)) Sample.filled))
  = [Evening.sent].
Proof.
  split; [reflexivity|]. split; [reflexivity|]. split.
  - exact (resubmit_without_editing Sample.rejecting Sample.accepting Sample.filled
             Evening.sent eq_refl eq_refl).
  - exact (resubmit_without_editing Sample.accepting Sample.accepting Sample.filled
             Evening.sent eq_refl eq_refl).
Defined.

Example evening_log :
  log (run (session Evening.steps) Evening.fresh)
  = [Fish_list;
     Fish_create Evening.sent; message_error "Failed to add fish catch";
     Fish_create Evening.sent; message_success "Fish catch added successfully!";
     Fish_list].
Proof. reflexivity. Qed.

Lemma biggestFish_first_of_the_heaviest_witness :
  existsb positive_weight Evening.tied = true /\
  biggestFish Evening.tied = Sample.bass /\
  exists before after,
    Evening.tied = (before ++ biggestFish Evening.tied :: after)%list /\
    (forall fish, In fish before ->
       JS.gt (JS.or_zero (weight (biggestFish Evening.tied)))
             (JS.or_zero (weight fish)) = true) /\
    (forall fish, In fish after ->
       JS.ge (JS.or_zero (weight (biggestFish Evening.tied)))
             (JS.or_zero (weight fish)) = true).
Proof.
  split; [reflexivity|]. split; [reflexivity|].
  exact (biggestFish_first_of_the_heaviest Evening.tied eq_refl).
Defined.

(** ** The Total Weight card *)

Module DigitFacts.

Import Decimal.











End DigitFacts.


